(** * ninetofiver: the admin configuration and the WSGI module

    A shallow embedding of [ninetofiver/admin.py] and [ninetofiver/wsgi.py]:
    the custom list filters, the bulk actions of the leave and timesheet
    admins, the list columns of the performance admin and the module body of
    the WSGI entry point, with the properties the specification states about
    them. *)

From Stdlib Require Import String Ascii List Bool Arith Lia DecimalString.
From stdpp Require Import base strings list gmap.
Import ListNotations.

Open Scope string_scope.

(* ===================================================================== *)
(** * Dates *)
(* ===================================================================== *)

(** [datetime.date] and [datetime.datetime], as far as admin.py uses them:
    comparison of dates (the lookups [__lte] and [__gte] against
    [date.today()]), [datetime.date()] and [str(date)]. *)
Module Dates.

Record date := mkdate { year : nat; month : nat; day : nat }.

Record datetime := mkdatetime { dt_date : date; hour : nat; minute : nat; second : nat }.

(** Python orders dates as the triples (year, month, day). *)
Definition date_cmp (a b : date) : comparison :=
  match Nat.compare (year a) (year b) with
  | Eq => match Nat.compare (month a) (month b) with
          | Eq => Nat.compare (day a) (day b)
          | c => c
          end
  | c => c
  end.

Definition date_leb (a b : date) : bool :=
  match date_cmp a b with Gt => false | _ => true end.

(** [a <= b] on dates, as a proposition. *)
Definition date_le (a b : date) : Prop :=
  year a < year b \/
  (year a = year b /\ (month a < month b \/ (month a = month b /\ day a <= day b))).

(** [datetime.date()]. *)
Definition date_of (t : datetime) : date := dt_date t.

(** Decimal digits of a number, most significant first. *)
Definition digits (n : nat) : string := NilEmpty.string_of_uint (Nat.to_uint n).

Fixpoint zeros (n : nat) : string :=
  match n with O => "" | S k => String "0" (zeros k) end.

(** The conversion [%0wd]. *)
Definition zfill (w : nat) (s : string) : string := zeros (w - String.length s) +:+ s.

(** [str(d)] is [d.isoformat()], that is [%04d-%02d-%02d]. *)
Definition isoformat (d : date) : string :=
  zfill 4 (digits (year d)) +:+ "-" +:+ zfill 2 (digits (month d)) +:+ "-" +:+ zfill 2 (digits (day d)).

End Dates.
Export Dates.

(* ===================================================================== *)
(** * The query builder *)
(* ===================================================================== *)

(** The part of the ORM's query builder the admin relies on. A [Q] object is
    a condition on one row; a queryset is a lazy query, the condition its
    [filter] calls have accumulated, and it is run against the table each time
    it is updated or iterated. A comparison with a NULL column is never true,
    and the conditions built here use no negation, so a two-valued reading of
    SQL's conditions is exact. *)
Module Orm.
Section Query.
Context {Row : Type}.

Definition Q : Type := Row -> bool.

(** [q1 & q2] and [q1 | q2]. *)
Definition Q_and (a b : Q) : Q := fun r => a r && b r.
Definition Q_or (a b : Q) : Q := fun r => a r || b r.

(** [Q(col__lte=d)], [Q(col__gte=d)], [Q(col__isnull=True)] on a date
    column and [Q(col=b)] on a boolean column. *)
Definition lte (col : Row -> option date) (d : date) : Q :=
  fun r => match col r with Some x => date_leb x d | None => false end.
Definition gte (col : Row -> option date) (d : date) : Q :=
  fun r => match col r with Some x => date_leb d x | None => false end.
Definition isnull (col : Row -> option date) : Q :=
  fun r => match col r with Some _ => false | None => true end.
Definition exact (col : Row -> bool) (b : bool) : Q :=
  fun r => Bool.eqb (col r) b.

Definition QuerySet : Type := Q.

(** [Model.objects.all()]. *)
Definition all : QuerySet := fun _ => true.

(** [queryset.filter(q)]. *)
Definition qs_filter (queryset : QuerySet) (q : Q) : QuerySet := Q_and queryset q.

(** The rows a queryset yields when it is evaluated on a table, in the
    table's order. *)
Definition rows (queryset : QuerySet) (table : list Row) : list Row :=
  List.filter queryset table.

(** [queryset.update(...)]: one UPDATE statement, the assignment [set]
    applied to the rows that satisfy the queryset's condition. *)
Definition update (queryset : QuerySet) (set : Row -> Row) (table : list Row) : list Row :=
  List.map (fun r => if queryset r then set r else r) table.

(** What the change list does with the result of a list filter's
    [queryset] method: a result of [None] leaves the queryset as it is. *)
Definition apply_list_filter (new_qs : option QuerySet) (queryset : QuerySet) : QuerySet :=
  match new_qs with Some qs => qs | None => queryset end.

End Query.
Arguments Q : clear implicits.
Arguments QuerySet : clear implicits.
End Orm.

(** [self.value() == s]: the filter's parameter of the request, [None] when
    the request has none, compared with a string. *)
Definition value_is (value : option string) (s : string) : bool :=
  match value with Some v => String.eqb v s | None => false end.

(* ===================================================================== *)
(** * The status filters *)
(* ===================================================================== *)

(** The columns of an employment contract that the admin shows; the dates are
    nullable columns. *)
Module EmploymentContract.
Record t := mk {
  pk : nat;
  user : nat;
  company : nat;
  employment_contract_type : nat;
  work_schedule : nat;
  started_at : option date;
  ended_at : option date }.
End EmploymentContract.

Module EmploymentContractStatusFilter.
Import Orm EmploymentContract.

Definition title : string := "Status".
Definition parameter_name : string := "status".

Definition lookups (ugettext : string -> string) : list (string * string) :=
  [ ("active", ugettext "Active"); ("ended", ugettext "Ended"); ("future", ugettext "Future") ].

(** [queryset(self, request, queryset)], with [self.value()] and
    [date.today()] as arguments. No branch taken returns [None]. *)
Definition queryset (value : option string) (today : date) (queryset : QuerySet t)
  : option (QuerySet t) :=
  if value_is value "active" then
    Some (qs_filter queryset
            (Q_and (lte started_at today) (Q_or (gte ended_at today) (isnull ended_at))))
  else if value_is value "ended" then
    Some (qs_filter queryset (lte ended_at today))
  else if value_is value "future" then
    Some (qs_filter queryset (gte started_at today))
  else None.

End EmploymentContractStatusFilter.

(** The columns of a contract (the polymorphic base row). *)
Module Contract.
Record t := mk {
  pk : nat;
  name : string;
  active : bool;
  company : nat;
  customer : nat;
  starts_at : option date;
  ends_at : option date;
  description : option string }.
End Contract.

Module ContractStatusFilter.
Import Orm Contract.

Definition title : string := "Status".
Definition parameter_name : string := "status".

Definition lookups (ugettext : string -> string) : list (string * string) :=
  [ ("active", ugettext "Active"); ("ended", ugettext "Ended"); ("future", ugettext "Future") ].

Definition queryset (value : option string) (today : date) (queryset : QuerySet t)
  : option (QuerySet t) :=
  if value_is value "active" then
    Some (qs_filter queryset
            (Q_and (Q_and (lte starts_at today) (Q_or (gte ends_at today) (isnull ends_at)))
                   (exact active true)))
  else if value_is value "ended" then
    Some (qs_filter queryset (Q_or (lte ends_at today) (exact active false)))
  else if value_is value "future" then
    Some (qs_filter queryset (gte starts_at today))
  else None.

End ContractStatusFilter.

(** A comparison of a nullable date column with a date, as a proposition:
    false when the column is NULL. *)
Definition col_le (c : option date) (d : date) : Prop := exists x, c = Some x /\ date_le x d.
Definition col_ge (c : option date) (d : date) : Prop := exists x, c = Some x /\ date_le d x.

(* ===================================================================== *)
(** * Exceptions, and actions on the database and the mail outbox *)
(* ===================================================================== *)

Module Effects.

Inductive Exception :=
| AttributeError (message : string)
| TypeError (message : string)
| RelatedObjectDoesNotExist (message : string)
| SMTPException (message : string)
| DatabaseError (message : string).

(** [isinstance(e, AttributeError)]: the exception a missing reverse
    one-to-one relation raises is an [AttributeError] too. *)
Definition is_AttributeError (e : Exception) : bool :=
  match e with
  | AttributeError _ | RelatedObjectDoesNotExist _ => true
  | _ => false
  end.

Inductive outcome (A : Type) :=
| Return (a : A)
| Raise (e : Exception).
Arguments Return {A} a.
Arguments Raise {A} e.

Section Monad.
Context {S : Type}.

(** A computation on a state: its outcome and the state it leaves. A raised
    exception keeps the state reached so far: nothing is rolled back. *)
Definition M (A : Type) : Type := S -> outcome A * S.

Definition ret {A} (a : A) : M A := fun s => (Return a, s).
Definition raise {A} (e : Exception) : M A := fun s => (Raise e, s).
Definition lift {A} (o : outcome A) : M A := fun s => (o, s).

Definition bind {A B} (c : M A) (k : A -> M B) : M B :=
  fun s => match c s with
           | (Return a, s') => k a s'
           | (Raise e, s') => (Raise e, s')
           end.

(** [for x in xs: body(x)]. *)
Fixpoint for_each {A B} (xs : list A) (body : A -> M B) : M unit :=
  match xs with
  | [] => ret tt
  | x :: rest => bind (body x) (fun _ => for_each rest body)
  end.

End Monad.
Arguments M : clear implicits.

Declare Scope action_scope.
Delimit Scope action_scope with action.
Notation "'let*' x ':=' c 'in' k" := (bind c (fun x => k))
  (at level 10, x name, c at level 100, k at level 200) : action_scope.
Notation "c '>>' k" := (bind c (fun _ => k))
  (at level 90, right associativity) : action_scope.

End Effects.
Export Effects.

(** [str(x)] of a nullable text column: the text, or [None] printed. *)
Definition str_option (x : option string) : string :=
  match x with Some s => s | None => "None" end.

(** The line feed of a [\n] escape. *)
Definition nl : string := String (ascii_of_nat 10) "".

(** [fmt % args] for a format that uses the conversion [%s] only, on
    arguments that are already strings. *)
Fixpoint percent_format (fmt : string) (args : list string) : outcome string :=
  match fmt with
  | "" =>
      match args with
      | [] => Return ""
      | _ :: _ => Raise (TypeError "not all arguments converted during string formatting")
      end
  | String "%" (String "s" rest) =>
      match args with
      | [] => Raise (TypeError "not enough arguments for format string")
      | a :: args' =>
          match percent_format rest args' with
          | Return s => Return (a +:+ s)
          | Raise e => Raise e
          end
      end
  | String c rest =>
      match percent_format rest args with
      | Return s => Return (String c s)
      | Raise e => Raise e
      end
  end.

(* ===================================================================== *)
(** * Leaves and timesheets: the rows and the bulk actions *)
(* ===================================================================== *)

Module User.
Record t := mk {
  pk : nat;
  username : string;
  first_name : string;
  last_name : string;
  email : string }.
End User.

Module LeaveType.
Record t := mk { pk : nat; name : string; description : option string }.
End LeaveType.

Module LeaveDate.
Record t := mk { pk : nat; starts_at : datetime; ends_at : datetime }.
End LeaveDate.

Module Leave.

(** The status enumeration is declared with the model; admin.py names
    [APPROVED] and [REJECTED], and [OTHER] stands for its other members. *)
Inductive STATUS := APPROVED | REJECTED | OTHER (name : string).

(** A leave row with the rows it refers to; [leavedate_set] is the reverse
    relation, in the order its queryset yields it. *)
Record t := mk {
  pk : nat;
  user : User.t;
  leave_type : LeaveType.t;
  description : option string;
  status : STATUS;
  leavedate_set : list LeaveDate.t }.

Definition set_status (s : STATUS) (l : t) : t :=
  {| pk := pk l; user := user l; leave_type := leave_type l; description := description l;
     status := s; leavedate_set := leavedate_set l |}.

End Leave.

Module Timesheet.

(** [OTHER] stands for members of the enumeration that admin.py does not
    name. *)
Inductive STATUS := CLOSED | ACTIVE | PENDING | OTHER (name : string).

Record t := mk {
  pk : nat;
  user : nat;
  month : nat;
  year : nat;
  status : STATUS }.

Definition set_status (s : STATUS) (x : t) : t :=
  {| pk := pk x; user := user x; month := month x; year := year x; status := s |}.

End Timesheet.

(** The four arguments of [send_mail]. *)
Module EmailMessage.
Record t := mk {
  subject : string;
  message : string;
  from_email : string;
  recipient_list : list string }.
End EmailMessage.

(** What the bulk actions read and write: the two tables and the messages
    handed to the mail backend so far. *)
Record World := mkWorld {
  leave_table : list Leave.t;
  timesheet_table : list Timesheet.t;
  outbox : list EmailMessage.t }.

(** [queryset.first()] and [queryset.last()] of a related set: [None] when it
    is empty. *)
Definition first {A} (l : list A) : option A := List.head l.
Definition last {A} (l : list A) : option A := List.head (List.rev l).

(** [x.starts_at] and [x.ends_at] where [x] may be [None]. *)
Definition getattr_starts_at (x : option LeaveDate.t) : outcome datetime :=
  match x with
  | Some d => Return (LeaveDate.starts_at d)
  | None => Raise (AttributeError "'NoneType' object has no attribute 'starts_at'")
  end.
Definition getattr_ends_at (x : option LeaveDate.t) : outcome datetime :=
  match x with
  | Some d => Return (LeaveDate.ends_at d)
  | None => Raise (AttributeError "'NoneType' object has no attribute 'ends_at'")
  end.

Module LeaveAdmin.
Import Orm.
Section Site.
(** [str(leave_type)], defined with the model, and the mail backend: the
    exception it raises for a message, if any. *)
Variable str_LeaveType : LeaveType.t -> string.
Variable backend : EmailMessage.t -> option Exception.

Local Open Scope action_scope.

(** [EmailMessage.recipients()]: the addresses that are not blank. *)
Definition recipients (m : EmailMessage.t) : list string :=
  List.filter (fun address => negb (String.eqb address "")) (EmailMessage.recipient_list m).

(** [send_mail(subject, message, from_email, recipient_list, fail_silently)]:
    the number of messages delivered. A message with no recipient left is
    not handed to the backend: the call returns 0 and nothing is sent. *)
Definition send_mail (m : EmailMessage.t) (fail_silently : bool) : M World nat :=
  fun w =>
    match recipients m with
    | [] => (Return 0, w)
    | _ :: _ =>
        match backend m with
        | None => (Return 1, mkWorld (leave_table w) (timesheet_table w) (outbox w ++ [m]))
        | Some e => if fail_silently then (Return 0, w) else (Raise e, w)
        end
    end.

(** [queryset.update(status=s)] and the evaluation of [queryset] by a [for]
    loop, on the table of leaves. *)
Definition update_status (queryset : QuerySet Leave.t) (s : Leave.STATUS) : M World nat :=
  fun w =>
    (Return (length (rows queryset (leave_table w))),
     mkWorld (update queryset (Leave.set_status s) (leave_table w)) (timesheet_table w) (outbox w)).

Definition iterate (queryset : QuerySet Leave.t) : M World (list Leave.t) :=
  fun w => (Return (rows queryset (leave_table w)), w).

Definition body_template : string :=
  "Dear %s" +:+ nl +:+ nl +:+ "your %s from " +:+ nl +:+ "%s to %s" +:+ nl +:+ "has been %s."
  +:+ nl +:+ nl +:+ "Kind regards" +:+ nl +:+ "An inocent bot".

(** The arguments [send_notification_email] builds for [send_mail], in the
    order Python evaluates them. *)
Definition notification_email (leave : Leave.t) (status : string) : outcome EmailMessage.t :=
  let subject := str_LeaveType (Leave.leave_type leave) +:+ " - " +:+ str_option (Leave.description leave) in
  match getattr_starts_at (first (Leave.leavedate_set leave)) with
  | Raise e => Raise e
  | Return starts_at =>
      match getattr_ends_at (last (Leave.leavedate_set leave)) with
      | Raise e => Raise e
      | Return ends_at =>
          match percent_format body_template
                  [ User.first_name (Leave.user leave); str_LeaveType (Leave.leave_type leave);
                    isoformat (date_of starts_at); isoformat (date_of ends_at); status ] with
          | Raise e => Raise e
          | Return message =>
              Return (EmailMessage.mk subject message "no-reply@inuits.eu"
                        [User.email (Leave.user leave)])
          end
      end
  end.

Definition send_notification_email (leave : Leave.t) (status : string) : M World nat :=
  let* m := lift (notification_email leave status) in
  send_mail m false.

(** The bulk actions; [self] and [request] are not used by them. *)
Definition make_approved (queryset : QuerySet Leave.t) : M World unit :=
  update_status queryset Leave.APPROVED >>
  let* leaves := iterate queryset in
  for_each leaves (fun leave => send_notification_email leave "approved").

Definition make_rejected (queryset : QuerySet Leave.t) : M World unit :=
  update_status queryset Leave.REJECTED >>
  let* leaves := iterate queryset in
  for_each leaves (fun leave => send_notification_email leave "rejected").

Definition actions : list string := [ "make_approved"; "make_rejected" ].

(** [getattr(self, name)] for the names of bulk actions. *)
Definition get_action (name : string) : option (QuerySet Leave.t -> M World unit) :=
  if String.eqb name "make_approved" then Some make_approved
  else if String.eqb name "make_rejected" then Some make_rejected
  else None.

End Site.
End LeaveAdmin.

Module TimesheetAdmin.
Import Orm.
Local Open Scope action_scope.

Definition update_status (queryset : QuerySet Timesheet.t) (s : Timesheet.STATUS) : M World nat :=
  fun w =>
    (Return (length (rows queryset (timesheet_table w))),
     mkWorld (leave_table w) (update queryset (Timesheet.set_status s) (timesheet_table w)) (outbox w)).

Definition make_closed (queryset : QuerySet Timesheet.t) : M World unit :=
  update_status queryset Timesheet.CLOSED >> ret tt.

Definition make_active (queryset : QuerySet Timesheet.t) : M World unit :=
  update_status queryset Timesheet.ACTIVE >> ret tt.

Definition make_pending (queryset : QuerySet Timesheet.t) : M World unit :=
  update_status queryset Timesheet.PENDING >> ret tt.

Definition actions : list string := [ "make_closed"; "make_active"; "make_pending" ].

Definition get_action (name : string) : option (QuerySet Timesheet.t -> M World unit) :=
  if String.eqb name "make_closed" then Some make_closed
  else if String.eqb name "make_active" then Some make_active
  else if String.eqb name "make_pending" then Some make_pending
  else None.

End TimesheetAdmin.

(* ===================================================================== *)
(** * The performance admin: columns of the polymorphic subtype *)
(* ===================================================================== *)

Module PerformanceType.
Record t := mk { pk : nat; name : string; description : option string; multiplier : nat }.
End PerformanceType.

Module ContractRole.
Record t := mk { pk : nat; name : string; description : option string }.
End ContractRole.

(** The columns of the activity subtype that the admin shows; [duration] is
    a decimal, kept as its number of hundredths. *)
Module ActivityPerformance.
Record t := mk {
  duration : nat;
  contract : Contract.t;
  performance_type : PerformanceType.t;
  description : option string;
  contract_role : option ContractRole.t }.
End ActivityPerformance.

(** A performance row. [activityperformance] is what reading the attribute
    of that name does: it returns the subtype's row or raises. *)
Module Performance.
Record t := mk {
  pk : nat;
  timesheet : nat;
  day : nat;
  activityperformance : outcome ActivityPerformance.t }.
End Performance.

(** [getattr(obj, name, default)], given what reading the attribute does:
    only an [AttributeError] is replaced by the default. *)
Definition getattr_default {A} (access : outcome A) (default : option A) : outcome (option A) :=
  match access with
  | Return a => Return (Some a)
  | Raise e => if is_AttributeError e then Return default else Raise e
  end.

(** [try: x = body / except: x = handler], the bare [except] of the source. *)
Definition try_except {A} (body : outcome A) (handler : A) : A :=
  match body with
  | Return a => a
  | Raise _ => handler
  end.

Module PerformanceParentAdmin.
Section Catalog.
(** The translation [_] of the active language. *)
Variable ugettext : string -> string.

(** The first statement of each of the five methods. *)
Definition activity_of (obj : Performance.t) : option ActivityPerformance.t :=
  try_except (getattr_default (Performance.activityperformance obj) None) None.

(** A row of a model is truthy, so [if activity:] tests for [None]. *)
Definition duration (obj : Performance.t) : option nat :=
  match activity_of obj with
  | Some activity => Some (ActivityPerformance.duration activity)
  | None => None
  end.

Definition contract (obj : Performance.t) : Contract.t + string :=
  match activity_of obj with
  | Some activity => inl (ActivityPerformance.contract activity)
  | None => inr (ugettext "Standby")
  end.

Definition performance_type (obj : Performance.t) : PerformanceType.t + string :=
  match activity_of obj with
  | Some activity => inl (ActivityPerformance.performance_type activity)
  | None => inr (ugettext "Standby")
  end.

Definition description (obj : Performance.t) : option string :=
  match activity_of obj with
  | Some activity => ActivityPerformance.description activity
  | None => None
  end.

Definition contract_role (obj : Performance.t) : option ContractRole.t :=
  match activity_of obj with
  | Some activity => ActivityPerformance.contract_role activity
  | None => None
  end.

End Catalog.
End PerformanceParentAdmin.

(* ===================================================================== *)
(** * The WSGI module *)
(* ===================================================================== *)

Module Wsgi.
Section Imports.
(** [ninetofiver.utils.get_django_configuration] and
    [configurations.wsgi.get_wsgi_application] are imported; both read the
    environment. The second import and the call [get_wsgi_application()],
    which follow the two [setdefault] statements, load the settings and set
    the framework up, which may write the environment as well (the time
    zone, for one): [get_wsgi_application] stands for both and gives the
    handler and the environment they leave. *)
Variable get_django_configuration : gmap string string -> string.
Variable WSGIHandler : Type.
Variable get_wsgi_application : gmap string string -> WSGIHandler * gmap string string.

(** [os.environ.setdefault(key, value)]: the value is already evaluated. *)
Definition setdefault (key value : string) (environ : gmap string string) : gmap string string :=
  match environ !! key with
  | Some _ => environ
  | None => <[key := value]> environ
  end.

(** The module after its body has run: the process environment and the
    attribute [application]. *)
Record module := mkmodule {
  os_environ : gmap string string;
  application : WSGIHandler }.

(** The two [setdefault] statements: the environment in which
    [get_wsgi_application()] is then called. *)
Definition configure (environ : gmap string string) : gmap string string :=
  let environ1 := setdefault "DJANGO_SETTINGS_MODULE" "ninetofiver.settings" environ in
  setdefault "DJANGO_CONFIGURATION" (get_django_configuration environ1) environ1.

Definition wsgi (environ : gmap string string) : module :=
  let environ2 := configure environ in
  let (handler, environ3) := get_wsgi_application environ2 in
  mkmodule environ3 handler.

End Imports.
End Wsgi.


(* ===================================================================== *)
(** * Vocabulary of the properties *)
(* ===================================================================== *)

(** [needle in hay] on strings. *)
Definition contains (needle hay : string) : Prop :=
  exists pre post, hay = pre +:+ needle +:+ post.

(** The message [m] is the notification of the leave [l]: it goes to the
    address of the leave's user, and its text names the leave type, the
    description, the date range (from the date of the first leave date's
    [starts_at] to the date of the last one's [ends_at]) and the decision. *)
Definition announces (str_LeaveType : LeaveType.t -> string)
    (l : Leave.t) (label : string) (m : EmailMessage.t) : Prop :=
  EmailMessage.recipient_list m = [User.email (Leave.user l)] /\
  contains (str_LeaveType (Leave.leave_type l)) (EmailMessage.subject m) /\
  contains (str_option (Leave.description l)) (EmailMessage.subject m) /\
  contains label (EmailMessage.message m) /\
  exists d1 d2,
    first (Leave.leavedate_set l) = Some d1 /\ last (Leave.leavedate_set l) = Some d2 /\
    contains (isoformat (date_of (LeaveDate.starts_at d1)) +:+ " to " +:+
              isoformat (date_of (LeaveDate.ends_at d2)))
             (EmailMessage.message m).

(** The bulk actions of the leave admin with the status each assigns and the
    word it puts in the mail. *)
Definition leave_actions (str_LeaveType : LeaveType.t -> string)
    (backend : EmailMessage.t -> option Exception)
  : list ((Orm.QuerySet Leave.t -> M World unit) * Leave.STATUS * string) :=
  [ (LeaveAdmin.make_approved str_LeaveType backend, Leave.APPROVED, "approved");
    (LeaveAdmin.make_rejected str_LeaveType backend, Leave.REJECTED, "rejected") ].

(** A queryset whose condition does not read the status column, as a
    selection by primary key is. *)
Definition status_independent (queryset : Orm.QuerySet Leave.t) : Prop :=
  forall s l, queryset (Leave.set_status s l) = queryset l.

(** [pk__in=selected]. *)
Definition pk_in (selected : list nat) : Orm.QuerySet Leave.t :=
  fun l => existsb (Nat.eqb (Leave.pk l)) selected.

(** [status=s], the condition of the change list's status filter. *)
Definition status_eqb (a b : Leave.STATUS) : bool :=
  match a, b with
  | Leave.APPROVED, Leave.APPROVED => true
  | Leave.REJECTED, Leave.REJECTED => true
  | Leave.OTHER x, Leave.OTHER y => String.eqb x y
  | _, _ => false
  end.
Definition status_is (s : Leave.STATUS) : Orm.QuerySet Leave.t :=
  fun l => status_eqb (Leave.status l) s.

(* ===================================================================== *)
(** * Sample data *)
(* ===================================================================== *)

Module Samples.

Definition today : date := mkdate 2018 6 15.

(** Two contracts with the same dates, one of them switched off. *)
Definition contract_on : Contract.t :=
  Contract.mk 1 "Support 2018" true 1 2 (Some (mkdate 2018 1 1)) None None.
Definition contract_off : Contract.t :=
  Contract.mk 2 "Support 2018" false 1 2 (Some (mkdate 2018 1 1)) None None.

(** A world with one open timesheet and no leave. *)
Definition timesheet_open : Timesheet.t := Timesheet.mk 1 7 6 2018 Timesheet.ACTIVE.
Definition world_timesheets : World := mkWorld [] [timesheet_open] [].

(** Leaves of one user: a week in July with two leave dates, and a leave
    that has no leave date yet. *)
Definition alice : User.t := User.mk 7 "alice" "Alice" "Martin" "alice@example.org".
Definition holiday : LeaveType.t := LeaveType.mk 1 "Holiday" None.
Definition str_name (x : LeaveType.t) : string := LeaveType.name x.

Definition leave_july : Leave.t :=
  Leave.mk 1 alice holiday (Some "Summer") (Leave.OTHER "pending")
    [ LeaveDate.mk 1 (mkdatetime (mkdate 2018 7 2) 9 0 0) (mkdatetime (mkdate 2018 7 2) 17 30 0);
      LeaveDate.mk 2 (mkdatetime (mkdate 2018 7 3) 9 0 0) (mkdatetime (mkdate 2018 7 3) 17 30 0) ].
Definition leave_undated : Leave.t :=
  Leave.mk 2 alice holiday None (Leave.OTHER "pending") [].

Definition world_july : World := mkWorld [leave_july] [] [].
Definition world_undated : World := mkWorld [leave_july; leave_undated] [] [].

(** A mail backend that accepts every message, and one that refuses all. *)
Definition backend_up (m : EmailMessage.t) : option Exception := None.

(** A second user, whose address the mail server refuses. *)
Definition bob : User.t := User.mk 8 "bob" "Bob" "Peeters" "bob@example.org".
Definition leave_bob : Leave.t :=
  Leave.mk 3 bob holiday (Some "Moving house") (Leave.OTHER "pending")
    [ LeaveDate.mk 3 (mkdatetime (mkdate 2018 8 20) 9 0 0) (mkdatetime (mkdate 2018 8 20) 17 30 0) ].
Definition leave_august : Leave.t :=
  Leave.mk 4 alice holiday None (Leave.OTHER "pending")
    [ LeaveDate.mk 4 (mkdatetime (mkdate 2018 8 27) 9 0 0) (mkdatetime (mkdate 2018 8 31) 17 30 0) ].
Definition world_team : World := mkWorld [leave_july; leave_bob; leave_august] [] [].

Definition backend_bounces (m : EmailMessage.t) : option Exception :=
  if existsb (String.eqb "bob@example.org") (EmailMessage.recipient_list m)
  then Some (SMTPException "Recipient address rejected")
  else None.

(** The message a leave's notification consists of, when it can be built. *)
Definition message_of (l : Leave.t) (label : string) : EmailMessage.t :=
  match LeaveAdmin.notification_email str_name l label with
  | Return m => m
  | Raise _ => EmailMessage.mk "" "" "" []
  end.

(** A standby performance: reading its [activityperformance] raises. *)
Definition standby : Performance.t :=
  Performance.mk 5 1 14 (Raise (RelatedObjectDoesNotExist "Performance has no activityperformance.")).

End Samples.

(* ===================================================================== *)
(** * Further vocabulary: the filters on a whole table *)
(* ===================================================================== *)

(** The condition a selection of a status filter puts on the rows of the
    model, that is on the queryset of all rows. *)
Definition employment_status (value : option string) (today : date)
  : Orm.QuerySet EmploymentContract.t :=
  Orm.apply_list_filter (EmploymentContractStatusFilter.queryset value today Orm.all) Orm.all.

Definition contract_status (value : option string) (today : date)
  : Orm.QuerySet Contract.t :=
  Orm.apply_list_filter (ContractStatusFilter.queryset value today Orm.all) Orm.all.

(** The values the lookups of both filters offer. *)
Definition status_values : list string := [ "active"; "ended"; "future" ].

(** A queryset on timesheets whose condition does not read the status
    column. *)
Definition timesheet_status_independent (queryset : Orm.QuerySet Timesheet.t) : Prop :=
  forall s x, queryset (Timesheet.set_status s x) = queryset x.

(** The bulk actions of the timesheet admin with the status each assigns. *)
Definition timesheet_actions
  : list ((Orm.QuerySet Timesheet.t -> M World unit) * Timesheet.STATUS) :=
  [ (TimesheetAdmin.make_closed, Timesheet.CLOSED);
    (TimesheetAdmin.make_active, Timesheet.ACTIVE);
    (TimesheetAdmin.make_pending, Timesheet.PENDING) ].

(** The queryset the change list hands to a bulk action when the list is
    filtered on a status and some rows are ticked:
    [Leave.objects.filter(status=s0).filter(pk__in=selected)]. *)
Definition ticked_under_status (s0 : Leave.STATUS) (selected : list nat) : Orm.QuerySet Leave.t :=
  Orm.qs_filter (Orm.qs_filter Orm.all (status_is s0)) (pk_in selected).

(* ===================================================================== *)
(** * The group admin *)
(* ===================================================================== *)

Module Group.
(** A group as the form builds it: [pk] is [None] until it is saved. *)
Record t := mk { pk : option nat; name : string }.
End Group.

(** Errors of Python built-ins that the code below can meet, besides the
    exceptions above. [LookupError] is the base class of [IndexError] and
    [KeyError]. *)
Module Py.

Inductive error :=
| ValueError (message : string)
| LookupError (message : string)
| Raised (e : Exception).

Inductive result (A : Type) :=
| Ok (a : A)
| Err (e : error).
Arguments Ok {A} a.
Arguments Err {A} e.

Definition map_result {A B} (f : A -> B) (r : result A) : result B :=
  match r with
  | Ok a => Ok (f a)
  | Err e => Err e
  end.

Definition of_outcome {A} (o : outcome A) : result A :=
  match o with
  | Return a => Ok a
  | Raise e => Err (Raised e)
  end.

End Py.

Module GroupAdmin.

(** What the group admin reads and writes: the table of groups by primary
    key, the users of each group (the many-to-many relation, by primary
    keys), and [GroupForm.base_fields['users'].initial], an attribute of the
    form class and so shared by all requests. *)
Record State := mkState {
  auth_group : gmap nat Group.t;
  user_set : gmap nat (gset nat);
  users_initial : option (list nat) }.

(** [obj.save()]: a group without key is inserted under a key no row has,
    a group with a key replaces or creates the row of that key. The key is
    returned, as the instance carries it afterwards. *)
Definition save (obj : Group.t) (st : State) : nat * State :=
  let k := match Group.pk obj with
           | Some k => k
           | None => fresh (dom (auth_group st))
           end in
  (k, mkState (<[k := Group.mk (Some k) (Group.name obj)]> (auth_group st))
        (user_set st) (users_initial st)).

(** [save_model(self, request, obj, form, change)], with
    [form.cleaned_data['users']] as argument: [super().save_model] saves the
    group, then [obj.user_set.set(...)] makes the given users its members. *)
Definition save_model (obj : Group.t) (cleaned_users : list User.t) (st : State)
  : Group.t * State :=
  let (k, st1) := save obj st in
  (Group.mk (Some k) (Group.name obj),
   mkState (auth_group st1)
     (<[k := list_to_set (map User.pk cleaned_users)]> (user_set st1))
     (users_initial st1)).

(** [obj.user_set.all()], as the keys of the users; a group that was never
    saved has no relation to read. *)
Definition user_set_all (obj : Group.t) (st : State) : Py.result (list nat) :=
  match Group.pk obj with
  | Some k => Py.Ok (elements (default ∅ (user_set st !! k)))
  | None =>
      Py.Err (Py.ValueError
                "<Group> needs to have a value for field 'id' before this many-to-many relationship can be used.")
  end.

(** [get_form(self, request, obj=None, **kwargs)]: it stores the keys of the
    group's users in the class attribute and returns the class [GroupForm]
    itself, so the state is all there is to observe. *)
Definition get_form (obj : option Group.t) (st : State) : Py.result State :=
  let pks := match obj with
             | Some g => user_set_all g st
             | None => Py.Ok []
             end in
  match pks with
  | Py.Ok pks => Py.Ok (mkState (auth_group st) (user_set st) (Some pks))
  | Py.Err e => Py.Err e
  end.

End GroupAdmin.

(** The key [save] stores a group under. *)
Definition saved_key (obj : Group.t) (st : GroupAdmin.State) : nat :=
  fst (GroupAdmin.save obj st).

(* ===================================================================== *)
(** * Columns rendered as HTML *)
(* ===================================================================== *)

Module Html.

(** The double quote character. *)
Definition dquote : string := String (ascii_of_nat 34) "".

(** [sep.join(items)]. *)
Fixpoint join (sep : string) (items : list string) : string :=
  match items with
  | [] => ""
  | [x] => x
  | x :: rest => x +:+ sep +:+ join sep rest
  end.

Fixpoint has_closing_brace (s : string) : bool :=
  match s with
  | "" => false
  | String "}" _ => true
  | String _ rest => has_closing_brace rest
  end.

(** [s.format()], without arguments: doubled braces stand for one brace, a
    single closing brace is an error, and a replacement field cannot be
    filled (an [IndexError] or a [KeyError]; a [ValueError] when the field is
    not closed). *)
Fixpoint format_no_args (s : string) : Py.result string :=
  match s with
  | "" => Py.Ok ""
  | String "{" (String "{" rest) => Py.map_result (String "{") (format_no_args rest)
  | String "}" (String "}" rest) => Py.map_result (String "}") (format_no_args rest)
  | String "{" rest =>
      if has_closing_brace rest
      then Py.Err (Py.LookupError "replacement field without arguments")
      else Py.Err (Py.ValueError "Single '{' encountered in format string")
  | String "}" _ => Py.Err (Py.ValueError "Single '}' encountered in format string")
  | String c rest => Py.map_result (String c) (format_no_args rest)
  end.

(** Text marked as safe: it reaches the page as it is. *)
Record SafeText := mark_safe { text : string }.

(** [format_html(format_string)] with no further argument: nothing is
    escaped, the string is formatted without arguments and marked safe. *)
Definition format_html (format_string : string) : Py.result SafeText :=
  Py.map_result mark_safe (format_no_args format_string).

(** A text without braces. *)
Definition is_brace (c : ascii) : bool := Ascii.eqb c "{" || Ascii.eqb c "}".

Fixpoint braces_free (s : string) : bool :=
  match s with
  | "" => true
  | String c rest => negb (is_brace c) && braces_free rest
  end.

(** [s.startswith(c)] for one character. *)
Definition starts_with (c : ascii) (s : string) : bool :=
  match s with
  | "" => false
  | String x _ => Ascii.eqb x c
  end.

End Html.

Module Attachment.
Record t := mk { pk : nat; name : string; description : option string; file : string; slug : string }.
End Attachment.

Module HtmlColumns.
Section Models.
(** [str(x)] of a leave date and of an attachment, and
    [Attachment.get_file_url()], are defined with the models. *)
Variable str_LeaveDate : LeaveDate.t -> string.
Variable str_Attachment : Attachment.t -> string.
Variable get_file_url : Attachment.t -> string.

Definition anchor_template : string :=
  "<a href=" +:+ Html.dquote +:+ "%s" +:+ Html.dquote +:+ ">%s</a>".

(** The expression that [AttachmentAdmin.link], [LeaveAdmin.attachment] and
    [ContractParentAdmin.attachment] format for one attachment. *)
Definition anchor (x : Attachment.t) : outcome string :=
  percent_format anchor_template [ get_file_url x; str_Attachment x ].

(** The list a generator expression of anchors builds: the first exception
    ends it. *)
Fixpoint anchors (xs : list Attachment.t) : outcome (list string) :=
  match xs with
  | [] => Return []
  | x :: rest =>
      match anchor x with
      | Raise e => Raise e
      | Return a =>
          match anchors rest with
          | Raise e => Raise e
          | Return l => Return (a :: l)
          end
      end
  end.

(** [AttachmentAdmin.link(self, obj)]. *)
Definition link (obj : Attachment.t) : Py.result Html.SafeText :=
  match anchor obj with
  | Raise e => Py.Err (Py.Raised e)
  | Return s => Html.format_html s
  end.

(** [LeaveAdmin.leave_dates(self, obj)]. *)
Definition leave_dates (obj : Leave.t) : Py.result Html.SafeText :=
  Html.format_html (Html.join "<br>" (map str_LeaveDate (Leave.leavedate_set obj))).

(** [LeaveAdmin.attachment(self, obj)] and
    [ContractParentAdmin.attachment(self, obj)], with [obj.attachments.all()]
    as argument. *)
Definition attachment (attachments : list Attachment.t) : Py.result Html.SafeText :=
  match anchors attachments with
  | Raise e => Py.Err (Py.Raised e)
  | Return l => Html.format_html (Html.join "<br>" l)
  end.

End Models.
End HtmlColumns.

Module MoreSamples.


Definition developers : Group.t := Group.mk None "Developers".
Definition empty_site : GroupAdmin.State := GroupAdmin.mkState ∅ ∅ None.

Definition report : Attachment.t := Attachment.mk 1 "report" None "report.pdf" "report".
Definition url_of (x : Attachment.t) : string := "/media/" +:+ Attachment.file x.
Definition name_of (x : Attachment.t) : string := Attachment.name x.

End MoreSamples.

(* ===================================================================== *)
(** * Properties: dates and queries *)
(* ===================================================================== *)

Lemma date_leb_le a b : date_leb a b = true <-> date_le a b.
Proof.
  unfold date_leb, date_cmp, date_le.
  destruct (Nat.compare_spec (year a) (year b));
    destruct (Nat.compare_spec (month a) (month b));
    destruct (Nat.compare_spec (day a) (day b));
    split; intros; try lia; try reflexivity; try discriminate.
Qed.

Lemma date_leb_refl a : date_leb a a = true.
Proof. apply date_leb_le. unfold date_le. lia. Qed.

Lemma date_le_refl a : date_le a a.
Proof. unfold date_le. lia. Qed.

Lemma date_le_trans a b c : date_le a b -> date_le b c -> date_le a c.
Proof. unfold date_le. lia. Qed.

Lemma date_le_antisym a b : date_le a b -> date_le b a -> a = b.
Proof.
  destruct a as [y1 m1 d1], b as [y2 m2 d2]. unfold date_le. simpl. intros H1 H2.
  assert (y1 = y2 /\ m1 = m2 /\ d1 = d2) as (-> & -> & ->) by lia.
  reflexivity.
Qed.

Lemma date_le_total a b : date_le a b \/ date_le b a.
Proof. unfold date_le. lia. Qed.

Example isoformat_example : isoformat (mkdate 2018 3 7) = "2018-03-07".
Proof. reflexivity. Qed.

Section QueryFacts.
Context {Row : Type}.
Implicit Types (queryset q : Orm.Q Row) (table : list Row) (r : Row).

Lemma In_rows queryset table r :
  In r (Orm.rows queryset table) <-> In r table /\ queryset r = true.
Proof. unfold Orm.rows. apply filter_In. Qed.

Lemma In_rows_filter queryset q table r :
  In r (Orm.rows (Orm.qs_filter queryset q) table) <-> In r (Orm.rows queryset table) /\ q r = true.
Proof.
  rewrite !In_rows. unfold Orm.qs_filter, Orm.Q_and. rewrite andb_true_iff. tauto.
Qed.

Lemma length_update queryset (set : Row -> Row) table :
  length (Orm.update queryset set table) = length table.
Proof. unfold Orm.update. apply length_map. Qed.

Lemma lte_col_le (col : Row -> option date) d r :
  Orm.lte col d r = true <-> col_le (col r) d.
Proof.
  unfold Orm.lte, col_le. destruct (col r) as [x|].
  - rewrite date_leb_le. split; [eauto | intros (y & [= <-] & H); exact H].
  - split; [discriminate | intros (y & [=] & _)].
Qed.

Lemma gte_col_ge (col : Row -> option date) d r :
  Orm.gte col d r = true <-> col_ge (col r) d.
Proof.
  unfold Orm.gte, col_ge. destruct (col r) as [x|].
  - rewrite date_leb_le. split; [eauto | intros (y & [= <-] & H); exact H].
  - split; [discriminate | intros (y & [=] & _)].
Qed.

Lemma isnull_None (col : Row -> option date) r :
  Orm.isnull col r = true <-> col r = None.
Proof. unfold Orm.isnull. destruct (col r); split; congruence. Qed.

Lemma exact_eq (col : Row -> bool) b r : Orm.exact col b r = true <-> col r = b.
Proof. unfold Orm.exact. apply Bool.eqb_true_iff. Qed.

End QueryFacts.

(* ===================================================================== *)
(** * Properties: the status filters *)
(* ===================================================================== *)

Section EmploymentContractFilter.
Import EmploymentContract.
Implicit Types (qs : Orm.QuerySet t) (table : list t) (r : t).

Lemma employment_active_spec today qs r q :
  EmploymentContractStatusFilter.queryset (Some "active") today qs = Some q ->
  q r = true <->
  qs r = true /\ col_le (started_at r) today /\ (col_ge (ended_at r) today \/ ended_at r = None).
Proof.
  intros [= <-]. unfold Orm.qs_filter, Orm.Q_and, Orm.Q_or.
  rewrite !andb_true_iff, orb_true_iff, lte_col_le, gte_col_ge, isnull_None. tauto.
Qed.

Lemma employment_ended_spec today qs r q :
  EmploymentContractStatusFilter.queryset (Some "ended") today qs = Some q ->
  q r = true <-> qs r = true /\ col_le (ended_at r) today.
Proof.
  intros [= <-]. unfold Orm.qs_filter, Orm.Q_and.
  rewrite andb_true_iff, lte_col_le. tauto.
Qed.

Lemma employment_future_spec today qs r q :
  EmploymentContractStatusFilter.queryset (Some "future") today qs = Some q ->
  q r = true <-> qs r = true /\ col_ge (started_at r) today.
Proof.
  intros [= <-]. unfold Orm.qs_filter, Orm.Q_and.
  rewrite andb_true_iff, gte_col_ge. tauto.
Qed.

(** C2: [EmploymentContractStatusFilter] returns, of the rows of the incoming
    queryset, for 'active' exactly those with started_at <= today and
    (ended_at >= today or ended_at NULL), for 'ended' exactly those with
    ended_at <= today, for 'future' exactly those with started_at >= today;
    with no value selected its [queryset] method returns [None] and the
    change list keeps the incoming queryset. *)
Theorem employment_contract_status_filter_classifies today qs table r :
  let selected value :=
    Orm.rows (Orm.apply_list_filter (EmploymentContractStatusFilter.queryset value today qs) qs) table in
  (In r (selected (Some "active")) <->
     In r (Orm.rows qs table) /\
     col_le (started_at r) today /\ (col_ge (ended_at r) today \/ ended_at r = None)) /\
  (In r (selected (Some "ended")) <-> In r (Orm.rows qs table) /\ col_le (ended_at r) today) /\
  (In r (selected (Some "future")) <-> In r (Orm.rows qs table) /\ col_ge (started_at r) today) /\
  EmploymentContractStatusFilter.queryset None today qs = None /\
  selected None = Orm.rows qs table.
Proof.
  cbv zeta. split; [| split; [| split; [| split]]]; try reflexivity.
  - rewrite !In_rows. cbn [Orm.apply_list_filter].
    rewrite (employment_active_spec today qs r _ eq_refl). tauto.
  - rewrite !In_rows. cbn [Orm.apply_list_filter].
    rewrite (employment_ended_spec today qs r _ eq_refl). tauto.
  - rewrite !In_rows. cbn [Orm.apply_list_filter].
    rewrite (employment_future_spec today qs r _ eq_refl). tauto.
Qed.

End EmploymentContractFilter.

Section ContractFilter.
Import Contract.
Implicit Types (qs : Orm.QuerySet t) (table : list t) (r : t).

Lemma contract_active_spec today qs r q :
  ContractStatusFilter.queryset (Some "active") today qs = Some q ->
  q r = true <->
  qs r = true /\ col_le (starts_at r) today /\ (col_ge (ends_at r) today \/ ends_at r = None) /\
  active r = true.
Proof.
  intros [= <-]. unfold Orm.qs_filter, Orm.Q_and, Orm.Q_or.
  rewrite !andb_true_iff, orb_true_iff, lte_col_le, gte_col_ge, isnull_None, exact_eq. tauto.
Qed.

Lemma contract_ended_spec today qs r q :
  ContractStatusFilter.queryset (Some "ended") today qs = Some q ->
  q r = true <-> qs r = true /\ (col_le (ends_at r) today \/ active r = false).
Proof.
  intros [= <-]. unfold Orm.qs_filter, Orm.Q_and, Orm.Q_or.
  rewrite andb_true_iff, orb_true_iff, lte_col_le, exact_eq. tauto.
Qed.

Lemma contract_future_spec today qs r q :
  ContractStatusFilter.queryset (Some "future") today qs = Some q ->
  q r = true <-> qs r = true /\ col_ge (starts_at r) today.
Proof.
  intros [= <-]. unfold Orm.qs_filter, Orm.Q_and.
  rewrite andb_true_iff, gte_col_ge. tauto.
Qed.

(** C3, as stated, fails: two contracts with the same start and end dates,
    one with [active] set and one without, are classified differently by
    'active' and by 'ended'. *)
Lemma contract_status_reads_active_flag :
  let selected value :=
    Orm.rows (Orm.apply_list_filter
                (ContractStatusFilter.queryset (Some value) Samples.today Orm.all) Orm.all)
             [Samples.contract_on; Samples.contract_off] in
  starts_at Samples.contract_on = starts_at Samples.contract_off /\
  ends_at Samples.contract_on = ends_at Samples.contract_off /\
  selected "active" = [Samples.contract_on] /\
  selected "ended" = [Samples.contract_off].
Proof. cbv zeta. repeat split; reflexivity. Qed.

(** C3, amended: whether [ContractStatusFilter] returns a contract for a
    selection is determined by its start date, its end date and its boolean
    [active] flag, and by nothing else. 'active' returns the contracts that
    have started, have not ended before today and have [active] set;
    'ended' returns the contracts that ended on or before today and, besides,
    every contract whose [active] flag is off; 'future' returns the contracts
    that start today or later, so for 'future' the dates alone decide. *)
Theorem contract_status_by_dates_and_active_flag today (c1 c2 : t) :
  let returned value c :=
    Orm.apply_list_filter (ContractStatusFilter.queryset value today Orm.all) Orm.all c in
  (returned (Some "active") c1 = true <->
     col_le (starts_at c1) today /\ (col_ge (ends_at c1) today \/ ends_at c1 = None) /\
     active c1 = true) /\
  (returned (Some "ended") c1 = true <-> col_le (ends_at c1) today \/ active c1 = false) /\
  (returned (Some "future") c1 = true <-> col_ge (starts_at c1) today) /\
  (forall value,
     starts_at c1 = starts_at c2 ->
     ends_at c1 = ends_at c2 ->
     (active c1 = active c2 -> returned value c1 = returned value c2) /\
     (value = Some "future" -> returned value c1 = returned value c2)).
Proof.
  cbv zeta. split; [| split; [| split]].
  - cbn [Orm.apply_list_filter].
    rewrite (contract_active_spec today Orm.all c1 _ eq_refl). unfold Orm.all. tauto.
  - cbn [Orm.apply_list_filter].
    rewrite (contract_ended_spec today Orm.all c1 _ eq_refl). unfold Orm.all. tauto.
  - cbn [Orm.apply_list_filter].
    rewrite (contract_future_spec today Orm.all c1 _ eq_refl). unfold Orm.all. tauto.
  - intros value Hs He. split.
    + intros Ha. unfold ContractStatusFilter.queryset.
      destruct (value_is value "active"); [| destruct (value_is value "ended");
        [| destruct (value_is value "future")]]; cbn [Orm.apply_list_filter];
        unfold Orm.qs_filter, Orm.Q_and, Orm.Q_or, Orm.lte, Orm.gte, Orm.isnull, Orm.exact,
          Orm.all;
        rewrite ?Hs, ?He, ?Ha; reflexivity.
    + intros ->. cbn. unfold Orm.gte. rewrite Hs. reflexivity.
Qed.

Lemma contract_status_by_dates_and_active_flag_witness :
  Orm.apply_list_filter (ContractStatusFilter.queryset (Some "active") Samples.today Orm.all)
    Orm.all Samples.contract_on = true /\
  Orm.apply_list_filter (ContractStatusFilter.queryset (Some "ended") Samples.today Orm.all)
    Orm.all Samples.contract_off = true.
Proof.
  split.
  - apply (contract_status_by_dates_and_active_flag Samples.today
             Samples.contract_on Samples.contract_off).
    split; [| split; [right |]]; try reflexivity.
    exists (mkdate 2018 1 1). split; [reflexivity |]. unfold date_le. cbn. lia.
  - apply (contract_status_by_dates_and_active_flag Samples.today
             Samples.contract_off Samples.contract_on).
    right. reflexivity.
Defined.

End ContractFilter.

(** C10: the selections overlap at their boundaries. An employment contract
    that ends today and started on or before today is returned by 'active'
    and by 'ended'; one that starts today and has not ended is returned by
    'active' and by 'future'; the same holds for [ContractStatusFilter] on a
    contract whose [active] flag is set. *)
Theorem status_selections_overlap (today : date) :
  let returned_e value r :=
    Orm.apply_list_filter (EmploymentContractStatusFilter.queryset (Some value) today Orm.all)
      Orm.all r = true in
  let returned_c value r :=
    Orm.apply_list_filter (ContractStatusFilter.queryset (Some value) today Orm.all)
      Orm.all r = true in
  (forall r,
     EmploymentContract.ended_at r = Some today -> col_le (EmploymentContract.started_at r) today ->
     returned_e "active" r /\ returned_e "ended" r) /\
  (exists r,
     EmploymentContract.ended_at r = Some today /\ col_le (EmploymentContract.started_at r) today /\
     returned_e "active" r /\ returned_e "ended" r) /\
  (exists r,
     EmploymentContract.started_at r = Some today /\
     returned_e "active" r /\ returned_e "future" r) /\
  (forall r,
     Contract.active r = true ->
     Contract.ends_at r = Some today -> col_le (Contract.starts_at r) today ->
     returned_c "active" r /\ returned_c "ended" r) /\
  (exists r,
     Contract.active r = true /\
     Contract.ends_at r = Some today /\ col_le (Contract.starts_at r) today /\
     returned_c "active" r /\ returned_c "ended" r) /\
  (exists r,
     Contract.active r = true /\ Contract.starts_at r = Some today /\
     returned_c "active" r /\ returned_c "future" r).
Proof.
  cbv zeta.
  assert (Hrefl : col_le (Some today) today /\ col_ge (Some today) today).
  { split; exists today; split; auto using date_le_refl. }
  destruct Hrefl as [Hle Hge].
  assert (He : forall r,
     EmploymentContract.ended_at r = Some today -> col_le (EmploymentContract.started_at r) today ->
     Orm.apply_list_filter (EmploymentContractStatusFilter.queryset (Some "active") today Orm.all)
       Orm.all r = true /\
     Orm.apply_list_filter (EmploymentContractStatusFilter.queryset (Some "ended") today Orm.all)
       Orm.all r = true).
  { intros r Hend Hstart. cbn [Orm.apply_list_filter]. split.
    - apply (employment_active_spec today Orm.all r _ eq_refl). rewrite Hend. auto.
    - apply (employment_ended_spec today Orm.all r _ eq_refl). rewrite Hend. auto. }
  assert (Hc : forall r,
     Contract.active r = true ->
     Contract.ends_at r = Some today -> col_le (Contract.starts_at r) today ->
     Orm.apply_list_filter (ContractStatusFilter.queryset (Some "active") today Orm.all)
       Orm.all r = true /\
     Orm.apply_list_filter (ContractStatusFilter.queryset (Some "ended") today Orm.all)
       Orm.all r = true).
  { intros r Hact Hend Hstart. cbn [Orm.apply_list_filter]. split.
    - apply (contract_active_spec today Orm.all r _ eq_refl). rewrite Hend. auto.
    - apply (contract_ended_spec today Orm.all r _ eq_refl). rewrite Hend. auto. }
  split; [exact He |]. split.
  { exists (EmploymentContract.mk 1 1 1 1 1 (Some today) (Some today)).
    split; [reflexivity |]. split; [exact Hle |]. apply He; [reflexivity | exact Hle]. }
  split.
  { exists (EmploymentContract.mk 1 1 1 1 1 (Some today) None).
    split; [reflexivity |]. cbn [Orm.apply_list_filter]. split.
    - apply (employment_active_spec today Orm.all _ _ eq_refl). auto.
    - apply (employment_future_spec today Orm.all _ _ eq_refl). auto. }
  split; [exact Hc |]. split.
  { exists (Contract.mk 1 "" true 1 1 (Some today) (Some today) None).
    split; [reflexivity |]. split; [reflexivity |]. split; [exact Hle |].
    apply Hc; [reflexivity | reflexivity | exact Hle]. }
  exists (Contract.mk 1 "" true 1 1 (Some today) None None).
  split; [reflexivity |]. split; [reflexivity |]. cbn [Orm.apply_list_filter]. split.
  - apply (contract_active_spec today Orm.all _ _ eq_refl). auto.
  - apply (contract_future_spec today Orm.all _ _ eq_refl). auto.
Qed.

(* ===================================================================== *)
(** * Properties: the timesheet bulk actions *)
(* ===================================================================== *)

Section TimesheetActions.
Import Timesheet TimesheetAdmin.
Implicit Types (queryset : Orm.QuerySet Timesheet.t) (w : World).

Lemma update_status_run queryset s w :
  (update_status queryset s >> ret tt)%action w =
  (Return tt, mkWorld (leave_table w) (Orm.update queryset (set_status s) (timesheet_table w)) (outbox w)).
Proof. reflexivity. Qed.

Lemma update_lookup {Row} (qs : Orm.QuerySet Row) (set : Row -> Row) (table : list Row) i :
  Orm.update qs set table !! i = (fun r => if qs r then set r else r) <$> table !! i.
Proof. unfold Orm.update. apply list_lookup_fmap. Qed.

(** C5: each timesheet bulk action returns normally, sends no mail and leaves
    the table of leaves alone; in the table of timesheets every row keeps its
    place and every column but [status], a row outside the selection is
    unchanged, and a selected row gets the action's status. *)
Theorem timesheet_actions_change_status_only action s queryset w :
  In (action, s) [ (make_closed, CLOSED); (make_active, ACTIVE); (make_pending, PENDING) ] ->
  let (result, w') := action queryset w in
  result = Return tt /\
  outbox w' = outbox w /\
  leave_table w' = leave_table w /\
  length (timesheet_table w') = length (timesheet_table w) /\
  forall i x, timesheet_table w !! i = Some x ->
    exists x', timesheet_table w' !! i = Some x' /\
      pk x' = pk x /\ user x' = user x /\ month x' = month x /\ year x' = year x /\
      (queryset x = false -> x' = x) /\
      (queryset x = true -> x' = set_status s x).
Proof.
  intros Hin.
  assert (Hrun : action queryset w =
                 (Return tt, mkWorld (leave_table w)
                               (Orm.update queryset (set_status s) (timesheet_table w)) (outbox w))).
  { simpl in Hin. destruct Hin as [[= <- <-] | [[= <- <-] | [[= <- <-] | []]]];
      apply update_status_run. }
  rewrite Hrun. cbn [outbox leave_table timesheet_table].
  repeat split; try apply length_update.
  intros i x Hx. rewrite update_lookup, Hx. cbn.
  destruct (queryset x) eqn:Hq.
  - exists (set_status s x). repeat split; congruence.
  - exists x. repeat split; congruence.
Qed.

Lemma timesheet_actions_change_status_only_witness :
  let (result, w') := make_closed Orm.all Samples.world_timesheets in
  result = Return tt /\
  outbox w' = outbox Samples.world_timesheets /\
  leave_table w' = leave_table Samples.world_timesheets /\
  length (timesheet_table w') = length (timesheet_table Samples.world_timesheets) /\
  forall i x, timesheet_table Samples.world_timesheets !! i = Some x ->
    exists x', timesheet_table w' !! i = Some x' /\
      pk x' = pk x /\ user x' = user x /\ month x' = month x /\ year x' = year x /\
      (Orm.all x = false -> x' = x) /\
      (Orm.all x = true -> x' = set_status CLOSED x).
Proof.
  apply (timesheet_actions_change_status_only make_closed CLOSED Orm.all Samples.world_timesheets).
  simpl. left. reflexivity.
Defined.

(** What it means for a bulk action to assign a status: on every table it
    writes that status to the selected rows. *)
Lemma set_status_inj s1 s2 x : set_status s1 x = set_status s2 x -> s1 = s2.
Proof. intros [= H]. exact H. Qed.

(** Sending mail does not touch the tables. *)
Lemma send_notification_email_tables str_LeaveType backend leave status w :
  leave_table (snd (LeaveAdmin.send_notification_email str_LeaveType backend leave status w)) =
    leave_table w /\
  timesheet_table (snd (LeaveAdmin.send_notification_email str_LeaveType backend leave status w)) =
    timesheet_table w.
Proof.
  unfold LeaveAdmin.send_notification_email, bind, lift, LeaveAdmin.send_mail.
  destruct (LeaveAdmin.notification_email str_LeaveType leave status) as [m | e]; [| split; reflexivity].
  destruct (LeaveAdmin.recipients m); [split; reflexivity |].
  destruct (backend m); split; reflexivity.
Qed.

Lemma for_each_keeps_leaves str_LeaveType backend status leaves w :
  leave_table (snd (for_each leaves
     (fun leave => LeaveAdmin.send_notification_email str_LeaveType backend leave status) w)) =
    leave_table w.
Proof.
  revert w. induction leaves as [| l leaves IH]; intros w; [reflexivity |].
  cbn [for_each]. unfold bind at 1.
  pose proof (send_notification_email_tables str_LeaveType backend l status w) as [Hl _].
  destruct (LeaveAdmin.send_notification_email str_LeaveType backend l status w) as [[n | e] w1];
    cbn [snd] in *.
  - rewrite IH. exact Hl.
  - exact Hl.
Qed.

(** C4, as stated, fails: the two admins define five bulk actions, three of
    them on timesheets, and [make_pending] assigns a status that is neither
    'active' nor 'closed'. *)
Lemma timesheet_actions_are_three :
  length (LeaveAdmin.actions ++ TimesheetAdmin.actions) = 5 /\
  length TimesheetAdmin.actions = 3 /\
  In "make_pending" TimesheetAdmin.actions /\
  get_action "make_pending" = Some make_pending /\
  timesheet_table (snd (make_pending Orm.all Samples.world_timesheets)) =
    [ set_status PENDING Samples.timesheet_open ] /\
  PENDING <> ACTIVE /\ PENDING <> CLOSED.
Proof.
  split; [reflexivity |]. split; [reflexivity |]. split; [simpl; tauto |].
  split; [reflexivity |]. split; [reflexivity |]. split; discriminate.
Qed.

(** C4, amended: the leave admin defines exactly two bulk actions, which
    assign APPROVED and REJECTED; the timesheet admin defines exactly three,
    and the statuses a timesheet bulk action can assign are exactly CLOSED,
    ACTIVE and PENDING. *)
Theorem bulk_actions_and_their_statuses :
  (forall str_LeaveType backend,
     map (LeaveAdmin.get_action str_LeaveType backend) LeaveAdmin.actions =
       [ Some (LeaveAdmin.make_approved str_LeaveType backend);
         Some (LeaveAdmin.make_rejected str_LeaveType backend) ] /\
     forall (selection : Orm.QuerySet Leave.t) w,
       leave_table (snd (LeaveAdmin.make_approved str_LeaveType backend selection w)) =
         Orm.update selection (Leave.set_status Leave.APPROVED) (leave_table w) /\
       leave_table (snd (LeaveAdmin.make_rejected str_LeaveType backend selection w)) =
         Orm.update selection (Leave.set_status Leave.REJECTED) (leave_table w)) /\
  map get_action TimesheetAdmin.actions = [ Some make_closed; Some make_active; Some make_pending ] /\
  forall s,
    (exists name action,
       In name TimesheetAdmin.actions /\ get_action name = Some action /\
       forall queryset w,
         timesheet_table (snd (action queryset w)) =
           Orm.update queryset (set_status s) (timesheet_table w))
    <-> s = CLOSED \/ s = ACTIVE \/ s = PENDING.
Proof.
  split; [| split].
  - intros str_LeaveType backend. split; [reflexivity |].
    intros selection w. unfold LeaveAdmin.make_approved, LeaveAdmin.make_rejected, bind.
    cbn [LeaveAdmin.update_status LeaveAdmin.iterate].
    split.
    + rewrite (for_each_keeps_leaves str_LeaveType backend). reflexivity.
    + rewrite (for_each_keeps_leaves str_LeaveType backend). reflexivity.
  - reflexivity.
  - intros s. split.
    + intros (name & action & Hin & Hget & Hrun).
      specialize (Hrun Orm.all Samples.world_timesheets).
      simpl in Hin. destruct Hin as [<- | [<- | [<- | []]]];
        injection Hget as <-; cbn in Hrun; injection Hrun as Hs;
        rewrite <- Hs; auto.
    + intros [-> | [-> | ->]].
      * exists "make_closed", make_closed. split; [simpl; tauto |]. split; reflexivity.
      * exists "make_active", make_active. split; [simpl; tauto |]. split; reflexivity.
      * exists "make_pending", make_pending. split; [simpl; tauto |]. split; reflexivity.
Qed.

End TimesheetActions.

(* ===================================================================== *)
(** * Properties: the leave bulk actions *)
(* ===================================================================== *)

Lemma append_assoc (a b c : string) : (a +:+ b) +:+ c = a +:+ b +:+ c.
Proof.
  induction a as [| x a IH]; [reflexivity |].
  change (String x ((a +:+ b) +:+ c) = String x (a +:+ b +:+ c)). f_equal. exact IH.
Qed.

Lemma append_empty_r (a : string) : a +:+ "" = a.
Proof.
  induction a as [| x a IH]; [reflexivity |].
  change (String x (a +:+ "") = String x a). f_equal. exact IH.
Qed.

Lemma contains_prefix needle post : contains needle (needle +:+ post).
Proof. exists "", post. reflexivity. Qed.

Lemma contains_suffix needle : contains needle needle.
Proof. exists "", "". symmetry. apply append_empty_r. Qed.

Lemma contains_append needle a s : contains needle s -> contains needle (a +:+ s).
Proof.
  intros (pre & post & ->). exists (a +:+ pre), post. now rewrite append_assoc.
Qed.

Lemma contains_String needle c s : contains needle s -> contains needle (String c s).
Proof. intros (pre & post & ->). exists (String c pre), post. reflexivity. Qed.

Example notification_example :
  LeaveAdmin.notification_email Samples.str_name Samples.leave_july "approved" =
  Return (EmailMessage.mk "Holiday - Summer"
            ("Dear Alice" +:+ nl +:+ nl +:+ "your Holiday from " +:+ nl +:+
             "2018-07-02 to 2018-07-03" +:+ nl +:+ "has been approved." +:+ nl +:+ nl +:+
             "Kind regards" +:+ nl +:+ "An inocent bot")
            "no-reply@inuits.eu" ["alice@example.org"]).
Proof. reflexivity. Qed.

Lemma Forall_exists_Forall2 {A B} (P : A -> B -> Prop) (ls : list A) :
  Forall (fun l => exists m, P l m) ls -> exists ms, Forall2 P ls ms.
Proof.
  induction 1 as [| l ls [m Hm] _ [ms IH]].
  - exists []. constructor.
  - exists (m :: ms). constructor; assumption.
Qed.

(** The rows a status update leaves in the queryset all carry the new status
    and come from rows that were in it before. *)
Lemma In_rows_update (queryset : Orm.QuerySet Leave.t) s table l :
  In l (Orm.rows queryset (Orm.update queryset (Leave.set_status s) table)) ->
  Leave.status l = s /\ exists r, In r (Orm.rows queryset table) /\ l = Leave.set_status s r.
Proof.
  rewrite In_rows. unfold Orm.update. rewrite in_map_iff.
  intros [(r & Hr & Hin) Hq]. destruct (queryset r) eqn:Hqr.
  - subst l. split; [reflexivity |]. exists r. rewrite In_rows. auto.
  - subst l. congruence.
Qed.

Lemma In_update_rows (queryset : Orm.QuerySet Leave.t) s table l :
  In l (Orm.rows queryset table) ->
  In (Leave.set_status s l) (Orm.update queryset (Leave.set_status s) table).
Proof.
  rewrite In_rows. intros [Hin Hq]. unfold Orm.update. apply in_map_iff.
  exists l. rewrite Hq. auto.
Qed.

Lemma rows_update_independent (queryset : Orm.QuerySet Leave.t) s table :
  status_independent queryset ->
  Orm.rows queryset (Orm.update queryset (Leave.set_status s) table) =
  map (Leave.set_status s) (Orm.rows queryset table).
Proof.
  intros Hind. unfold Orm.rows, Orm.update.
  induction table as [| r table IH]; [reflexivity |].
  cbn [map List.filter]. destruct (queryset r) eqn:Hq.
  - rewrite Hind, Hq. cbn [map]. now rewrite IH.
  - rewrite Hq. exact IH.
Qed.

Lemma pk_in_status_independent selected : status_independent (pk_in selected).
Proof. intros s l. reflexivity. Qed.

Section LeaveActions.
Import Leave.
Variable str_LeaveType : LeaveType.t -> string.
Variable backend : EmailMessage.t -> option Exception.

Local Abbreviation notification := (LeaveAdmin.notification_email str_LeaveType).
Local Abbreviation send := (LeaveAdmin.send_notification_email str_LeaveType backend).
Local Abbreviation posted w ms := (mkWorld (leave_table w) (timesheet_table w) (outbox w ++ ms)).

Implicit Types (queryset : Orm.QuerySet Leave.t) (w : World) (l : Leave.t) (label : string).

Lemma notification_set_status s l label :
  notification (set_status s l) label = notification l label.
Proof. reflexivity. Qed.

Lemma notification_no_dates l label :
  leavedate_set l = [] ->
  notification l label = Raise (AttributeError "'NoneType' object has no attribute 'starts_at'").
Proof. intros H. unfold LeaveAdmin.notification_email. rewrite H. reflexivity. Qed.

Lemma last_nonempty {A} (x : A) (xs : list A) : exists y, last (x :: xs) = Some y.
Proof.
  unfold last. destruct (rev (x :: xs)) as [| y ys] eqn:E.
  - apply (f_equal (@length A)) in E. rewrite length_rev in E. discriminate.
  - exists y. reflexivity.
Qed.

Lemma notification_dated l label :
  leavedate_set l <> [] ->
  exists d1 d2,
    first (leavedate_set l) = Some d1 /\ last (leavedate_set l) = Some d2 /\
    notification l label =
      Return (EmailMessage.mk
                (str_LeaveType (leave_type l) +:+ " - " +:+ str_option (description l))
                ("Dear " +:+ User.first_name (user l) +:+ nl +:+ nl +:+
                 "your " +:+ str_LeaveType (leave_type l) +:+ " from " +:+ nl +:+
                 isoformat (date_of (LeaveDate.starts_at d1)) +:+ " to " +:+
                 isoformat (date_of (LeaveDate.ends_at d2)) +:+ nl +:+
                 "has been " +:+ label +:+ "." +:+ nl +:+ nl +:+
                 "Kind regards" +:+ nl +:+ "An inocent bot")
                "no-reply@inuits.eu" [User.email (user l)]).
Proof.
  intros Hne. unfold LeaveAdmin.notification_email.
  destruct (leavedate_set l) as [| d ds]; [contradiction |].
  destruct (last_nonempty d ds) as [d2 Hlast].
  exists d, d2. rewrite Hlast. repeat split; reflexivity.
Qed.

Lemma notification_announces l label m :
  notification l label = Return m -> announces str_LeaveType l label m.
Proof.
  intros Hm. destruct (leavedate_set l) as [| d ds] eqn:Hdates.
  - rewrite (notification_no_dates l label Hdates) in Hm. discriminate.
  - assert (Hne : leavedate_set l <> []) by congruence.
    destruct (notification_dated l label Hne) as (d1 & d2 & Hfirst & Hlast & Heq).
    rewrite Heq in Hm. injection Hm as <-.
    unfold announces. cbn [EmailMessage.recipient_list EmailMessage.subject EmailMessage.message].
    split; [reflexivity |]. split; [apply contains_prefix |].
    split; [do 2 apply contains_append; apply contains_suffix |].
    split; [do 13 apply contains_append; apply contains_prefix |].
    exists d1, d2. split; [exact Hfirst |]. split; [exact Hlast |].
    do 8 apply contains_append.
    exists "". eexists. cbn [String.append]. rewrite !append_assoc. reflexivity.
Qed.

(** One call of [send_notification_email], by what happens to the message. *)
Lemma send_accepted l label m w :
  notification l label = Return m -> LeaveAdmin.recipients m <> [] -> backend m = None ->
  send l label w = (Return 1, posted w [m]).
Proof.
  intros Hm Hr Hb. unfold LeaveAdmin.send_notification_email, bind, lift, LeaveAdmin.send_mail.
  rewrite Hm, Hb. destruct (LeaveAdmin.recipients m); [contradiction | reflexivity].
Qed.

Lemma send_refused l label m e w :
  notification l label = Return m -> LeaveAdmin.recipients m <> [] -> backend m = Some e ->
  send l label w = (Raise e, w).
Proof.
  intros Hm Hr Hb. unfold LeaveAdmin.send_notification_email, bind, lift, LeaveAdmin.send_mail.
  rewrite Hm, Hb. destruct (LeaveAdmin.recipients m); [contradiction | reflexivity].
Qed.

Lemma send_without_recipient l label m w :
  notification l label = Return m -> LeaveAdmin.recipients m = [] ->
  send l label w = (Return 0, w).
Proof.
  intros Hm Hr. unfold LeaveAdmin.send_notification_email, bind, lift, LeaveAdmin.send_mail.
  rewrite Hm, Hr. reflexivity.
Qed.

(** The notification of a leave has a recipient exactly when the address of
    the leave's user is not blank. *)
Lemma recipients_of_notification l label m :
  notification l label = Return m ->
  LeaveAdmin.recipients m = if String.eqb (User.email (user l)) "" then [] else [User.email (user l)].
Proof.
  intros Hm. apply notification_announces in Hm. destruct Hm as (Hto & _).
  unfold LeaveAdmin.recipients. rewrite Hto. cbn [List.filter].
  destruct (String.eqb (User.email (user l)) ""); reflexivity.
Qed.

Lemma recipients_nonblank l label m :
  notification l label = Return m -> User.email (user l) <> "" -> LeaveAdmin.recipients m <> [].
Proof.
  intros Hm He. rewrite (recipients_of_notification l label m Hm).
  apply String.eqb_neq in He. rewrite He. discriminate.
Qed.

Lemma recipients_blank l label m :
  notification l label = Return m -> User.email (user l) = "" -> LeaveAdmin.recipients m = [].
Proof.
  intros Hm He. rewrite (recipients_of_notification l label m Hm), He. reflexivity.
Qed.

Lemma send_not_built l label e w :
  notification l label = Raise e -> send l label w = (Raise e, w).
Proof.
  intros Hm. unfold LeaveAdmin.send_notification_email, bind, lift. rewrite Hm. reflexivity.
Qed.

(** The loop over the leaves: it posts one message per leave as long as the
    messages are built and accepted, and stops at the first leave whose
    notification raises. *)
Lemma for_each_all_sent leaves msgs label w :
  Forall2 (fun l m => notification l label = Return m /\ LeaveAdmin.recipients m <> [] /\
                      backend m = None) leaves msgs ->
  for_each leaves (fun l => send l label) w = (Return tt, posted w msgs).
Proof.
  intros H. revert w. induction H as [| l m leaves msgs (Hm & Hr & Hb) _ IH]; intros w.
  - cbn [for_each]. unfold ret. rewrite app_nil_r. destruct w; reflexivity.
  - cbn [for_each]. unfold bind at 1. rewrite (send_accepted l label m w Hm Hr Hb).
    rewrite IH. cbn [leave_table timesheet_table outbox]. now rewrite <- app_assoc.
Qed.

Lemma for_each_stops before x after msgs e label w :
  Forall2 (fun l m => notification l label = Return m /\ LeaveAdmin.recipients m <> [] /\
                      backend m = None) before msgs ->
  (forall w1, send x label w1 = (Raise e, w1)) ->
  for_each (before ++ x :: after) (fun l => send l label) w = (Raise e, posted w msgs).
Proof.
  intros H Hx. revert w. induction H as [| l m leaves msgs (Hm & Hr & Hb) _ IH]; intros w.
  - cbn [app for_each]. unfold bind at 1. rewrite Hx, app_nil_r. destruct w; reflexivity.
  - cbn [app for_each]. unfold bind at 1. rewrite (send_accepted l label m w Hm Hr Hb).
    rewrite IH. cbn [leave_table timesheet_table outbox]. now rewrite <- app_assoc.
Qed.

Lemma for_each_raises leaves x label w :
  In x leaves -> (exists e, forall w1, send x label w1 = (Raise e, w1)) ->
  exists e, fst (for_each leaves (fun l => send l label) w) = Raise e.
Proof.
  intros Hin [e Hx]. revert w. induction leaves as [| l leaves IH]; intros w; [destruct Hin |].
  cbn [for_each]. unfold bind at 1. destruct Hin as [-> | Hin].
  - rewrite Hx. exists e. reflexivity.
  - destruct (send l label w) as [[n | e'] w1].
    + apply IH. exact Hin.
    + exists e'. reflexivity.
Qed.

(** Each action is the update followed by the loop over the rows the
    queryset yields after the update. *)
Lemma leave_action_run action s label queryset w :
  In (action, s, label) (leave_actions str_LeaveType backend) ->
  action queryset w =
  for_each (Orm.rows queryset (Orm.update queryset (set_status s) (leave_table w)))
    (fun l => send l label)
    (mkWorld (Orm.update queryset (set_status s) (leave_table w)) (timesheet_table w) (outbox w)).
Proof.
  intros Hin. simpl in Hin.
  destruct Hin as [[= <- <- <-] | [[= <- <- <-] | []]]; reflexivity.
Qed.

Lemma leave_action_table action s label queryset w :
  In (action, s, label) (leave_actions str_LeaveType backend) ->
  leave_table (snd (action queryset w)) = Orm.update queryset (set_status s) (leave_table w).
Proof.
  intros Hin. rewrite (leave_action_run action s label queryset w Hin).
  now rewrite for_each_keeps_leaves.
Qed.

Lemma Forall2_weaken {A B} (P Q : A -> B -> Prop) (xs : list A) (ys : list B) :
  (forall x y, P x y -> Q x y) -> Forall2 P xs ys -> Forall2 Q xs ys.
Proof. intros HPQ. induction 1; constructor; auto. Qed.

(** The loop up to a leave whose notification raises: every earlier leave's
    message was built and either had no recipient or was accepted. The
    messages posted are those of the earlier leaves that have a recipient, in
    order. *)
Lemma for_each_reaches before x after e label w :
  (forall l, In l before ->
     exists m, notification l label = Return m /\
               (LeaveAdmin.recipients m = [] \/ backend m = None)) ->
  (forall w1, send x label w1 = (Raise e, w1)) ->
  exists msgs,
    for_each (before ++ x :: after) (fun l => send l label) w = (Raise e, posted w msgs) /\
    length msgs <= length before /\
    Forall (fun m => exists l, In l before /\ notification l label = Return m) msgs /\
    ((forall l, In l before -> User.email (user l) <> "") ->
     Forall2 (fun l m => notification l label = Return m) before msgs).
Proof.
  intros Hbefore Hx. revert w. induction before as [| l before IH]; intros w.
  - exists []. cbn [app for_each]. unfold bind at 1. rewrite Hx, app_nil_r.
    split; [destruct w; reflexivity |]. split; [reflexivity |].
    split; constructor.
  - destruct (Hbefore l (or_introl eq_refl)) as (m & Hm & Hsent).
    assert (Hrest : forall l', In l' before ->
              exists m', notification l' label = Return m' /\
                         (LeaveAdmin.recipients m' = [] \/ backend m' = None))
      by (intros l' Hl'; apply Hbefore; now right).
    cbn [app for_each]. unfold bind at 1.
    destruct (LeaveAdmin.recipients m) as [| a rest] eqn:Hr.
    + rewrite (send_without_recipient l label m w Hm Hr).
      destruct (IH Hrest w) as (msgs & Hrun & Hlen & Hall & Hpair).
      exists msgs. split; [exact Hrun |]. split; [cbn [length]; lia |]. split.
      * eapply List.Forall_impl; [| exact Hall]. intros m' (l' & Hin & Hm').
        exists l'. split; [now right | exact Hm'].
      * intros Hmail. exfalso.
        apply (recipients_nonblank l label m Hm (Hmail l (or_introl eq_refl))). exact Hr.
    + assert (Hne : LeaveAdmin.recipients m <> []) by (rewrite Hr; discriminate).
      assert (Hb : backend m = None) by (destruct Hsent as [H | H]; [congruence | exact H]).
      rewrite (send_accepted l label m w Hm Hne Hb).
      destruct (IH Hrest (posted w [m])) as (msgs & Hrun & Hlen & Hall & Hpair).
      exists (m :: msgs). rewrite Hrun. cbn [leave_table timesheet_table outbox length].
      rewrite <- app_assoc. split; [reflexivity |]. split; [lia |]. split.
      * constructor; [exists l; split; [now left | exact Hm] |].
        eapply List.Forall_impl; [| exact Hall]. intros m' (l' & Hin & Hm').
        exists l'. split; [now right | exact Hm'].
      * intros Hmail. constructor; [exact Hm |]. apply Hpair.
        intros l' Hl'. apply Hmail. now right.
Qed.


(** C7: [send_mail] is called with [fail_silently=False], so a message the
    backend refuses raises out of the action. At that point the status of
    every row of the queryset is already changed and stays changed; the
    messages in the outbox are those of leaves before the failing one in
    queryset order (every one of them when their users have an address), and
    no message is posted for the failing leave or any leave after it. *)
Theorem mail_failure_propagates action s label queryset w before x after m e :
  let visited := Orm.rows queryset (Orm.update queryset (set_status s) (leave_table w)) in
  In (action, s, label) (leave_actions str_LeaveType backend) ->
  visited = (before ++ x :: after)%list ->
  (forall l, In l before ->
     exists m', notification l label = Return m' /\
                (LeaveAdmin.recipients m' = [] \/ backend m' = None)) ->
  notification x label = Return m ->
  LeaveAdmin.recipients m <> [] ->
  backend m = Some e ->
  let (result, w') := action queryset w in
  result = Raise e /\
  LeaveAdmin.send_mail backend m false w = (Raise e, w) /\
  LeaveAdmin.send_mail backend m true w = (Return 0, w) /\
  leave_table w' = Orm.update queryset (set_status s) (leave_table w) /\
  (forall l, In l (Orm.rows queryset (leave_table w)) -> In (set_status s l) (leave_table w')) /\
  (forall l, In l visited -> status l = s) /\
  exists msgs,
    outbox w' = (outbox w ++ msgs)%list /\
    length msgs <= length before /\
    Forall (fun m' => exists l, In l before /\ notification l label = Return m') msgs /\
    ((forall l, In l before -> User.email (user l) <> "") ->
     length msgs = length before /\
     Forall2 (fun l m' => notification l label = Return m') before msgs).
Proof.
  intros visited Hin Hsplit Hbefore Hm Hr He.
  assert (Hstatus : forall l, In l visited -> status l = s)
    by (intros l Hl; now apply In_rows_update in Hl).
  destruct (for_each_reaches before x after e label
              (mkWorld (Orm.update queryset (set_status s) (leave_table w))
                 (timesheet_table w) (outbox w)) Hbefore
              (fun w1 => send_refused x label m e w1 Hm Hr He))
    as (msgs & Hrun & Hlen & Hall & Hpair).
  rewrite (leave_action_run action s label queryset w Hin).
  fold visited. rewrite Hsplit, Hrun.
  cbn [leave_table timesheet_table outbox].
  split; [reflexivity |].
  split; [unfold LeaveAdmin.send_mail; rewrite He;
          destruct (LeaveAdmin.recipients m); [contradiction | reflexivity] |].
  split; [unfold LeaveAdmin.send_mail; rewrite He;
          destruct (LeaveAdmin.recipients m); reflexivity |].
  split; [reflexivity |].
  split; [intros l Hl; now apply In_update_rows |].
  split; [intros l Hl; apply Hstatus; rewrite Hsplit; exact Hl |].
  exists msgs. split; [reflexivity |]. split; [exact Hlen |]. split; [exact Hall |].
  intros Hmail. specialize (Hpair Hmail). split; [| exact Hpair].
  symmetry. eapply Forall2_length. exact Hpair.
Qed.

(** C9, amended: when the queryset still contains a leave without leave
    dates when the action iterates it, after the update (as it does for
    every such leave of a selection that does not read the status, one by
    primary key for instance), the action raises, and it does so after the
    status of every row of the queryset has been changed. The exception is
    the [AttributeError] of [leavedate_set.first().starts_at] on [None],
    raised while that leave's message is built, unless the mail of an
    earlier leave failed first; no message is posted for the leave. *)
Theorem undated_leave_fails_after_update action s label queryset w x :
  let visited := Orm.rows queryset (Orm.update queryset (set_status s) (leave_table w)) in
  In (action, s, label) (leave_actions str_LeaveType backend) ->
  In x visited ->
  leavedate_set x = [] ->
  let (result, w') := action queryset w in
  (exists e, result = Raise e) /\
  notification x label = Raise (AttributeError "'NoneType' object has no attribute 'starts_at'") /\
  leave_table w' = Orm.update queryset (set_status s) (leave_table w) /\
  (forall l, In l (Orm.rows queryset (leave_table w)) -> In (set_status s l) (leave_table w')) /\
  (forall l, In l visited -> status l = s) /\
  (status_independent queryset ->
   forall x0, In x0 (Orm.rows queryset (leave_table w)) -> In (set_status s x0) visited) /\
  (forall before after,
     visited = (before ++ x :: after)%list ->
     (forall l, In l before ->
        exists m, notification l label = Return m /\
                  (LeaveAdmin.recipients m = [] \/ backend m = None)) ->
     result = Raise (AttributeError "'NoneType' object has no attribute 'starts_at'") /\
     exists msgs,
       outbox w' = (outbox w ++ msgs)%list /\
       Forall (fun m => exists l, In l before /\ notification l label = Return m) msgs).
Proof.
  intros visited Hin Hx Hdates.
  pose proof (notification_no_dates x label Hdates) as Hbuild.
  pose proof (leave_action_table action s label queryset w Hin) as Htable.
  pose proof (leave_action_run action s label queryset w Hin) as Hrun. fold visited in Hrun.
  destruct (action queryset w) as [result w'] eqn:Hact. cbn [snd] in Htable.
  split.
  { destruct (for_each_raises visited x label
                (mkWorld (Orm.update queryset (set_status s) (leave_table w))
                   (timesheet_table w) (outbox w)) Hx) as [e He].
    - eexists. intros w1. apply send_not_built. exact Hbuild.
    - rewrite <- Hrun in He. exists e. exact He. }
  split; [exact Hbuild |]. split; [exact Htable |].
  split; [intros l Hl; rewrite Htable; now apply In_update_rows |].
  split; [intros l Hl; now apply In_rows_update in Hl |].
  split.
  { intros Hind x0 Hx0. unfold visited. rewrite (rows_update_independent queryset s _ Hind).
    now apply in_map. }
  intros before after Hsplit Hbefore.
  destruct (for_each_reaches before x after _ label
              (mkWorld (Orm.update queryset (set_status s) (leave_table w))
                 (timesheet_table w) (outbox w)) Hbefore
              (fun w1 => send_not_built x label _ w1 Hbuild))
    as (msgs & Hrun' & _ & Hall & _).
  rewrite Hsplit, Hrun' in Hrun. injection Hrun as -> ->. cbn [outbox].
  split; [reflexivity |]. exists msgs. split; [reflexivity | exact Hall].
Qed.

End LeaveActions.



(** A queryset is evaluated again by the loop, after the update. When its
    condition reads the status, as under the change list's status filter,
    the rows it selected have left it by then: their status is set and the
    loop visits none of them. *)
Remark status_filter_empties_the_loop :
  let queryset := Orm.qs_filter (status_is (Leave.OTHER "pending")) (pk_in [1]) in
  Orm.rows queryset (leave_table Samples.world_july) = [Samples.leave_july] /\
  LeaveAdmin.make_approved Samples.str_name Samples.backend_up queryset Samples.world_july =
    (Return tt, mkWorld [ Leave.set_status Leave.APPROVED Samples.leave_july ] [] []).
Proof. split; reflexivity. Qed.

Lemma mail_failure_propagates_witness :
  fst (LeaveAdmin.make_approved Samples.str_name Samples.backend_bounces (pk_in [1; 3; 4])
         Samples.world_team) = Raise (SMTPException "Recipient address rejected") /\
  length (outbox (snd (LeaveAdmin.make_approved Samples.str_name Samples.backend_bounces
                         (pk_in [1; 3; 4]) Samples.world_team))) = 1.
Proof.
  pose proof (mail_failure_propagates Samples.str_name Samples.backend_bounces
                (LeaveAdmin.make_approved Samples.str_name Samples.backend_bounces)
                Leave.APPROVED "approved" (pk_in [1; 3; 4]) Samples.world_team
                [ Leave.set_status Leave.APPROVED Samples.leave_july ]
                (Leave.set_status Leave.APPROVED Samples.leave_bob)
                [ Leave.set_status Leave.APPROVED Samples.leave_august ]
                (Samples.message_of Samples.leave_bob "approved")
                (SMTPException "Recipient address rejected")) as H.
  cbv zeta in H. specialize (H (or_introl eq_refl) eq_refl).
  assert (Hbefore : forall l,
            In l [ Leave.set_status Leave.APPROVED Samples.leave_july ] ->
            exists m', LeaveAdmin.notification_email Samples.str_name l "approved" = Return m' /\
                       (LeaveAdmin.recipients m' = [] \/ Samples.backend_bounces m' = None)).
  { intros l [<- | []]. eexists. split; [reflexivity | right; reflexivity]. }
  assert (Hto : LeaveAdmin.recipients (Samples.message_of Samples.leave_bob "approved") <> [])
    by discriminate.
  specialize (H Hbefore eq_refl Hto eq_refl).
  destruct (LeaveAdmin.make_approved Samples.str_name Samples.backend_bounces (pk_in [1; 3; 4])
              Samples.world_team) as [result w'].
  destruct H as (Hres & _ & _ & _ & _ & _ & msgs & Hout & _ & _ & Hall). cbn [fst snd].
  split; [exact Hres |]. rewrite Hout. cbn [Samples.world_team outbox app].
  apply Hall. intros l [<- | []]. discriminate.
Defined.

(** C9, as stated, fails. Two leaves are ticked in a change list filtered on
    the pending status, one of them without a leave date: the queryset
    contains the undated leave, yet the action returns normally, with both
    statuses set and no message posted, because the loop evaluates the
    queryset again after the update and finds no row. *)
Lemma undated_leave_under_status_filter_is_skipped :
  let queryset := ticked_under_status (Leave.OTHER "pending") [1; 2] in
  In Samples.leave_undated (Orm.rows queryset (leave_table Samples.world_undated)) /\
  Leave.leavedate_set Samples.leave_undated = [] /\
  LeaveAdmin.make_approved Samples.str_name Samples.backend_up queryset Samples.world_undated =
    (Return tt,
     mkWorld [ Leave.set_status Leave.APPROVED Samples.leave_july;
               Leave.set_status Leave.APPROVED Samples.leave_undated ] [] []).
Proof. cbv zeta. split; [right; left; reflexivity |]. split; reflexivity. Qed.

Lemma undated_leave_fails_after_update_witness :
  exists e,
    fst (LeaveAdmin.make_rejected Samples.str_name Samples.backend_up (pk_in [1; 2])
           Samples.world_undated) = Raise e.
Proof.
  pose proof (undated_leave_fails_after_update Samples.str_name Samples.backend_up
                (LeaveAdmin.make_rejected Samples.str_name Samples.backend_up)
                Leave.REJECTED "rejected" (pk_in [1; 2]) Samples.world_undated
                (Leave.set_status Leave.REJECTED Samples.leave_undated)) as H.
  cbv zeta in H. specialize (H (or_intror (or_introl eq_refl))).
  assert (Hin : In (Leave.set_status Leave.REJECTED Samples.leave_undated)
                  (Orm.rows (pk_in [1; 2])
                     (Orm.update (pk_in [1; 2]) (Leave.set_status Leave.REJECTED)
                        (leave_table Samples.world_undated)))).
  { right. left. reflexivity. }
  specialize (H Hin eq_refl).
  destruct (LeaveAdmin.make_rejected Samples.str_name Samples.backend_up (pk_in [1; 2])
              Samples.world_undated) as [result w'].
  destruct H as (Hres & _). exact Hres.
Defined.

(* ===================================================================== *)
(** * Properties: the columns of the performance admin *)
(* ===================================================================== *)

Section PerformanceColumns.
Import PerformanceParentAdmin.
Variable ugettext : string -> string.

Lemma activity_of_found obj a :
  Performance.activityperformance obj = Return a -> activity_of obj = Some a.
Proof. intros H. unfold activity_of. rewrite H. reflexivity. Qed.

Lemma activity_of_raised obj e :
  Performance.activityperformance obj = Raise e -> activity_of obj = None.
Proof.
  intros H. unfold activity_of. rewrite H. cbn [getattr_default].
  destruct (is_AttributeError e); reflexivity.
Qed.

(** With a subtype the columns show its fields. *)
Lemma columns_of_activity obj a :
  Performance.activityperformance obj = Return a ->
  duration obj = Some (ActivityPerformance.duration a) /\
  contract ugettext obj = inl (ActivityPerformance.contract a) /\
  performance_type ugettext obj = inl (ActivityPerformance.performance_type a) /\
  description obj = ActivityPerformance.description a /\
  contract_role obj = ActivityPerformance.contract_role a.
Proof.
  intros H. unfold duration, contract, performance_type, description, contract_role.
  rewrite (activity_of_found obj a H). repeat split.
Qed.

(** C6: for a performance without an activity subtype, whatever exception
    reading [activityperformance] raises, the exception is suppressed:
    [duration], [description] and [contract_role] return [None], [contract]
    and [performance_type] return the translated 'Standby' label. The
    exception is seen by no caller, whether or not it is an
    [AttributeError]. Elsewhere nothing is caught: an exception raised while
    a leave's message is built, or by the mail backend when it is handed the
    message, leaves the leave admin's code as it is. *)
Theorem missing_subtype_gives_defaults obj :
  (forall a, Performance.activityperformance obj <> Return a) ->
  (exists e, Performance.activityperformance obj = Raise e /\
             try_except (getattr_default (Performance.activityperformance obj) None) None = None) /\
  duration obj = None /\
  description obj = None /\
  contract ugettext obj = inr (ugettext "Standby") /\
  performance_type ugettext obj = inr (ugettext "Standby") /\
  contract_role obj = None /\
  (forall str_LeaveType backend leave status e w,
     LeaveAdmin.notification_email str_LeaveType leave status = Raise e ->
     LeaveAdmin.send_notification_email str_LeaveType backend leave status w = (Raise e, w)) /\
  (forall (backend : EmailMessage.t -> option Exception) m e w,
     LeaveAdmin.recipients m <> [] ->
     backend m = Some e -> LeaveAdmin.send_mail backend m false w = (Raise e, w)).
Proof.
  intros Hnone.
  destruct (Performance.activityperformance obj) as [a | e] eqn:Hattr;
    [now destruct (Hnone a) |].
  pose proof (activity_of_raised obj e Hattr) as Hact.
  split; [exists e; split; [reflexivity |]; rewrite <- Hattr; exact Hact |].
  unfold duration, description, contract, performance_type, contract_role. rewrite Hact.
  do 5 (split; [reflexivity |]). split.
  - intros str_LeaveType backend leave status e' w H. now apply send_not_built.
  - intros backend m e' w Hr H. unfold LeaveAdmin.send_mail. rewrite H.
    destruct (LeaveAdmin.recipients m); [contradiction | reflexivity].
Qed.

End PerformanceColumns.

Lemma missing_subtype_gives_defaults_witness :
  PerformanceParentAdmin.duration Samples.standby = None /\
  PerformanceParentAdmin.contract (fun s => s) Samples.standby = inr "Standby".
Proof.
  pose proof (missing_subtype_gives_defaults (fun s => s) Samples.standby) as H.
  assert (Hnone : forall a, Performance.activityperformance Samples.standby <> Return a)
    by (intros a; discriminate).
  specialize (H Hnone). destruct H as (_ & Hd & _ & Hc & _).
  split; [exact Hd | exact Hc].
Defined.

(* ===================================================================== *)
(** * Properties: the WSGI module *)
(* ===================================================================== *)

Section WsgiModule.
Variable get_django_configuration : gmap string string -> string.
Variable WSGIHandler : Type.
Variable get_wsgi_application : gmap string string -> WSGIHandler * gmap string string.

Lemma setdefault_lookup key value (environ : gmap string string) k :
  Wsgi.setdefault key value environ !! k =
  if decide (k = key) then Some (default value (environ !! key)) else environ !! k.
Proof.
  unfold Wsgi.setdefault. destruct (environ !! key) as [v |] eqn:Hkey.
  - case_decide; [subst; exact Hkey | reflexivity].
  - case_decide.
    + subst. apply lookup_insert_eq.
    + now apply lookup_insert_ne.
Qed.

(** C8: the module body sets DJANGO_SETTINGS_MODULE to
    'ninetofiver.settings' and DJANGO_CONFIGURATION to the result of
    [get_django_configuration()] only where the variable is not set; a value
    that is already there, of these or of any other variable, is kept by
    these statements. [get_wsgi_application()] is called in the environment
    so prepared, and the module attribute [application] is the handler it
    returns; the environment the module leaves is the one that call
    leaves. *)
Theorem wsgi_module_sets_defaults (environ : gmap string string) :
  let m := Wsgi.wsgi get_django_configuration WSGIHandler get_wsgi_application environ in
  let env := Wsgi.configure get_django_configuration environ in
  let environ1 := Wsgi.setdefault "DJANGO_SETTINGS_MODULE" "ninetofiver.settings" environ in
  env !! "DJANGO_SETTINGS_MODULE" =
    Some (default "ninetofiver.settings" (environ !! "DJANGO_SETTINGS_MODULE")) /\
  env !! "DJANGO_CONFIGURATION" =
    Some (default (get_django_configuration environ1) (environ !! "DJANGO_CONFIGURATION")) /\
  (forall k v, environ !! k = Some v -> env !! k = Some v) /\
  (forall k, k <> "DJANGO_SETTINGS_MODULE" -> k <> "DJANGO_CONFIGURATION" ->
             env !! k = environ !! k) /\
  Wsgi.application WSGIHandler m = fst (get_wsgi_application env) /\
  Wsgi.os_environ WSGIHandler m = snd (get_wsgi_application env).
Proof.
  cbv zeta. unfold Wsgi.wsgi.
  destruct (get_wsgi_application (Wsgi.configure get_django_configuration environ))
    as [handler environ3].
  cbn [Wsgi.os_environ Wsgi.application fst snd]. unfold Wsgi.configure.
  split; [| split; [| split; [| split; [| split]]]].
  - rewrite !setdefault_lookup.
    rewrite decide_False by discriminate. rewrite decide_True by reflexivity. reflexivity.
  - rewrite !setdefault_lookup.
    rewrite decide_True by reflexivity. rewrite decide_False by discriminate. reflexivity.
  - intros k v Hk. rewrite setdefault_lookup.
    destruct (decide (k = "DJANGO_CONFIGURATION")) as [-> | Hc].
    + rewrite setdefault_lookup, decide_False by discriminate. rewrite Hk. reflexivity.
    + rewrite setdefault_lookup.
      destruct (decide (k = "DJANGO_SETTINGS_MODULE")) as [-> | Hs].
      * rewrite Hk. reflexivity.
      * exact Hk.
  - intros k H1 H2. rewrite !setdefault_lookup.
    rewrite !decide_False by assumption. reflexivity.
  - reflexivity.
  - reflexivity.
Qed.

End WsgiModule.

(* ===================================================================== *)
(** * Further properties: the status filters *)
(* ===================================================================== *)

Lemma date_leb_total a b : date_leb a b = false -> date_leb b a = true.
Proof.
  intros H. apply date_leb_le. destruct (date_le_total a b) as [Hab | Hba]; [| exact Hba].
  apply date_leb_le in Hab. congruence.
Qed.

Lemma date_leb_antisym a b : date_leb a b = true -> date_leb b a = true -> a = b.
Proof. rewrite !date_leb_le. apply date_le_antisym. Qed.

Lemma date_leb_trans a b c : date_leb a b = true -> date_leb b c = true -> date_leb a c = true.
Proof. rewrite !date_leb_le. apply date_le_trans. Qed.

Lemma value_is_other value s : value <> Some s -> value_is value s = false.
Proof.
  destruct value as [v |]; [| reflexivity]. intros H. cbn.
  apply String.eqb_neq. congruence.
Qed.

Lemma value_is_Some value s : value_is value s = true -> value = Some s.
Proof.
  destruct value as [v |]; [| discriminate]. cbn. intros H.
  apply String.eqb_eq in H. congruence.
Qed.

(** X1: A value of the parameter that is none of 'active', 'ended', 'future'
    (another word, another spelling, the empty string) makes both filters
    return [None]: the change list is shown unfiltered. The three lookup
    values are the only ones that filter. *)
Theorem status_filters_ignore_other_values value today
    (eqs : Orm.QuerySet EmploymentContract.t) (cqs : Orm.QuerySet Contract.t) :
  (EmploymentContractStatusFilter.queryset value today eqs = None <->
     ~ In value (map Some status_values)) /\
  (ContractStatusFilter.queryset value today cqs = None <->
     ~ In value (map Some status_values)) /\
  (~ In value (map Some status_values) ->
   Orm.apply_list_filter (EmploymentContractStatusFilter.queryset value today eqs) eqs = eqs /\
   Orm.apply_list_filter (ContractStatusFilter.queryset value today cqs) cqs = cqs).
Proof.
  assert (Hcases : ~ In value (map Some status_values) <->
                   value_is value "active" = false /\ value_is value "ended" = false /\
                   value_is value "future" = false).
  { cbn [map status_values In]. split.
    - intros H. repeat split; apply value_is_other; intros ->; tauto.
    - intros (H1 & H2 & H3) [<- | [<- | [<- | []]]]; discriminate. }
  unfold EmploymentContractStatusFilter.queryset, ContractStatusFilter.queryset.
  rewrite Hcases.
  destruct (value_is value "active"), (value_is value "ended"), (value_is value "future");
    cbn [Orm.apply_list_filter]; intuition congruence.
Qed.

Section Classification.
Implicit Types (today : date).

Lemma employment_status_active today r :
  employment_status (Some "active") today r =
  Orm.lte EmploymentContract.started_at today r &&
  (Orm.gte EmploymentContract.ended_at today r || Orm.isnull EmploymentContract.ended_at r).
Proof. reflexivity. Qed.

Lemma contract_status_active today c :
  contract_status (Some "active") today c =
  Orm.lte Contract.starts_at today c &&
  (Orm.gte Contract.ends_at today c || Orm.isnull Contract.ends_at c) &&
  Bool.eqb (Contract.active c) true.
Proof. reflexivity. Qed.

(** X2: Every employment contract and every contract that has a start date is
    returned by at least one of the three selections, whatever today is; a
    row without start date and without end date is returned by none of them
    (for a contract: when its [active] flag is set). *)
Theorem dated_rows_are_classified today :
  (forall r, is_Some (EmploymentContract.started_at r) ->
     exists value, In value status_values /\ employment_status (Some value) today r = true) /\
  (forall c, is_Some (Contract.starts_at c) ->
     exists value, In value status_values /\ contract_status (Some value) today c = true) /\
  (forall r value,
     EmploymentContract.started_at r = None -> EmploymentContract.ended_at r = None ->
     employment_status (Some value) today r = true -> ~ In value status_values) /\
  (forall c value,
     Contract.starts_at c = None -> Contract.ends_at c = None -> Contract.active c = true ->
     contract_status (Some value) today c = true -> ~ In value status_values).
Proof.
  split; [| split; [| split]].
  - intros r [s Hs].
    destruct (date_leb today s) eqn:Hfut.
    { exists "future". split; [cbn; tauto |]. cbn. unfold Orm.gte. now rewrite Hs. }
    apply date_leb_total in Hfut.
    destruct (EmploymentContract.ended_at r) as [e |] eqn:He.
    + destruct (date_leb today e) eqn:Hact.
      * exists "active". split; [cbn; tauto |]. rewrite employment_status_active.
        unfold Orm.lte, Orm.gte. now rewrite Hs, He, Hfut, Hact.
      * apply date_leb_total in Hact. exists "ended". split; [cbn; tauto |].
        cbn. unfold Orm.lte. now rewrite He.
    + exists "active". split; [cbn; tauto |]. rewrite employment_status_active.
      unfold Orm.lte, Orm.gte, Orm.isnull. now rewrite Hs, He, Hfut.
  - intros c [s Hs].
    destruct (date_leb today s) eqn:Hfut.
    { exists "future". split; [cbn; tauto |]. cbn. unfold Orm.gte. now rewrite Hs. }
    apply date_leb_total in Hfut.
    destruct (Contract.active c) eqn:Hflag.
    2:{ exists "ended". split; [cbn; tauto |]. cbn. unfold Orm.Q_or, Orm.exact.
        rewrite Hflag. apply orb_true_r. }
    destruct (Contract.ends_at c) as [e |] eqn:He.
    + destruct (date_leb today e) eqn:Hact.
      * exists "active". split; [cbn; tauto |]. rewrite contract_status_active.
        unfold Orm.lte, Orm.gte. now rewrite Hs, He, Hfut, Hact, Hflag.
      * apply date_leb_total in Hact. exists "ended". split; [cbn; tauto |].
        cbn. unfold Orm.Q_or, Orm.lte. now rewrite He, Hact.
    + exists "active". split; [cbn; tauto |]. rewrite contract_status_active.
      unfold Orm.lte, Orm.gte, Orm.isnull. now rewrite Hs, He, Hfut, Hflag.
  - intros r value Hs He Hret [<- | [<- | [<- | []]]]; revert Hret; cbn;
      unfold Orm.Q_and, Orm.Q_or, Orm.lte, Orm.gte, Orm.isnull; rewrite ?Hs, ?He; discriminate.
  - intros c value Hs He Hflag Hret [<- | [<- | [<- | []]]]; revert Hret; cbn;
      unfold Orm.Q_and, Orm.Q_or, Orm.lte, Orm.gte, Orm.isnull, Orm.exact;
      rewrite ?Hs, ?He, ?Hflag; discriminate.
Qed.

End Classification.

Section Boundaries.
Implicit Types (today : date).

Lemma employment_status_ended today r :
  employment_status (Some "ended") today r = Orm.lte EmploymentContract.ended_at today r.
Proof. reflexivity. Qed.

Lemma employment_status_future today r :
  employment_status (Some "future") today r = Orm.gte EmploymentContract.started_at today r.
Proof. reflexivity. Qed.

(** X3: Two selections return the same row only at a boundary: 'active' and
    'ended' only when the row ends today, 'active' and 'future' only when
    it starts today, and 'ended' and 'future' only when it ends on or before
    today and starts on or after today. *)
Theorem employment_selections_meet_at_today today r :
  (employment_status (Some "active") today r = true ->
   employment_status (Some "ended") today r = true ->
   EmploymentContract.ended_at r = Some today) /\
  (employment_status (Some "active") today r = true ->
   employment_status (Some "future") today r = true ->
   EmploymentContract.started_at r = Some today) /\
  (employment_status (Some "ended") today r = true ->
   employment_status (Some "future") today r = true ->
   col_le (EmploymentContract.ended_at r) today /\ col_ge (EmploymentContract.started_at r) today).
Proof.
  rewrite employment_status_active, employment_status_ended, employment_status_future.
  unfold Orm.lte, Orm.gte, Orm.isnull.
  destruct (EmploymentContract.started_at r) as [s |], (EmploymentContract.ended_at r) as [e |];
    cbn [andb orb]; split; [| split | | split | | split | | split]; try discriminate.
  - rewrite andb_true_iff, orb_false_r. intros [_ H1] H2. f_equal. now apply date_leb_antisym.
  - rewrite andb_true_iff. intros [H1 _] H2. f_equal. now apply date_leb_antisym.
  - intros H1 H2. split; eexists; (split; [reflexivity | now apply date_leb_le]).
  - rewrite andb_true_iff. intros [H1 _] H2. f_equal. now apply date_leb_antisym.
Qed.

(** X4: A contract whose [active] flag is off is returned by 'ended' and never by
    'active', whatever its dates are: also when it has not started yet, in
    which case 'future' returns it as well. *)
Theorem inactive_contract_is_ended today c :
  Contract.active c = false ->
  contract_status (Some "ended") today c = true /\
  contract_status (Some "active") today c = false /\
  (contract_status (Some "future") today c = true <-> col_ge (Contract.starts_at c) today).
Proof.
  intros Hflag. split; [| split].
  - cbn. unfold Orm.Q_or, Orm.exact. rewrite Hflag. apply orb_true_r.
  - rewrite contract_status_active, Hflag. apply andb_false_r.
  - cbn. apply gte_col_ge.
Qed.

Lemma inactive_contract_is_ended_witness :
  contract_status (Some "ended") Samples.today Samples.contract_off = true /\
  contract_status (Some "active") Samples.today Samples.contract_off = false.
Proof.
  destruct (inactive_contract_is_ended Samples.today Samples.contract_off eq_refl)
    as (H1 & H2 & _).
  split; [exact H1 | exact H2].
Defined.

(** X5: Time only moves rows out of 'future' and into 'ended': a row that
    'ended' returns on one day is returned on every later day, and a row
    that 'future' returns on one day was returned on every earlier day. *)
Theorem status_over_time today later r c :
  date_le today later ->
  (employment_status (Some "ended") today r = true ->
   employment_status (Some "ended") later r = true) /\
  (employment_status (Some "future") later r = true ->
   employment_status (Some "future") today r = true) /\
  (contract_status (Some "ended") today c = true ->
   contract_status (Some "ended") later c = true) /\
  (contract_status (Some "future") later c = true ->
   contract_status (Some "future") today c = true).
Proof.
  intros Hle. apply date_leb_le in Hle. cbn.
  unfold Orm.Q_and, Orm.Q_or, Orm.lte, Orm.gte, Orm.exact.
  repeat split.
  - destruct (EmploymentContract.ended_at r); [| discriminate].
    intros H. eapply date_leb_trans; eassumption.
  - destruct (EmploymentContract.started_at r); [| discriminate].
    intros H. eapply date_leb_trans; eassumption.
  - rewrite !orb_true_iff. intros [H | H]; [left | right; exact H].
    destruct (Contract.ends_at c); [| discriminate]. eapply date_leb_trans; eassumption.
  - destruct (Contract.starts_at c); [| discriminate].
    intros H. eapply date_leb_trans; eassumption.
Qed.

Lemma status_over_time_witness :
  contract_status (Some "ended") (mkdate 2019 1 1) Samples.contract_off = true.
Proof.
  apply (status_over_time (mkdate 2018 6 15) (mkdate 2019 1 1)
           (EmploymentContract.mk 1 1 1 1 1 None None) Samples.contract_off).
  - unfold date_le. cbn. lia.
  - reflexivity.
Defined.

End Boundaries.

(* ===================================================================== *)
(** * Further properties: the leave bulk actions *)
(* ===================================================================== *)

Lemma status_eqb_eq a b : status_eqb a b = true <-> a = b.
Proof.
  destruct a, b; cbn; split; try congruence; try reflexivity.
  - intros H. apply String.eqb_eq in H. congruence.
  - intros [= ->]. apply String.eqb_refl.
Qed.

Lemma rows_none {Row} (queryset : Orm.QuerySet Row) (table : list Row) :
  (forall r, In r table -> queryset r = false) -> Orm.rows queryset table = [].
Proof.
  unfold Orm.rows. induction table as [| r table IH]; intros H; [reflexivity |].
  cbn [List.filter]. rewrite (H r (or_introl eq_refl)). apply IH.
  intros r' Hr'. apply H. now right.
Qed.

Lemma update_none {Row} (queryset : Orm.QuerySet Row) (set : Row -> Row) (table : list Row) :
  (forall r, In r table -> queryset r = false) -> Orm.update queryset set table = table.
Proof.
  unfold Orm.update. induction table as [| r table IH]; intros H; [reflexivity |].
  cbn [map]. rewrite (H r (or_introl eq_refl)). f_equal. apply IH.
  intros r' Hr'. apply H. now right.
Qed.

Lemma rows_update_gone (queryset : Orm.QuerySet Leave.t) s table :
  (forall l, queryset (Leave.set_status s l) = false) ->
  Orm.rows queryset (Orm.update queryset (Leave.set_status s) table) = [].
Proof.
  intros Hgone. apply rows_none. intros r Hr.
  unfold Orm.update in Hr. apply in_map_iff in Hr. destruct Hr as (r0 & <- & _).
  destruct (queryset r0) eqn:Hq; [apply Hgone | exact Hq].
Qed.

Lemma update_update_independent (queryset : Orm.QuerySet Leave.t) s1 s2 table :
  status_independent queryset ->
  Orm.update queryset (Leave.set_status s2) (Orm.update queryset (Leave.set_status s1) table) =
  Orm.update queryset (Leave.set_status s2) table.
Proof.
  intros Hind. unfold Orm.update. rewrite map_map. apply map_ext. intros r.
  destruct (queryset r) eqn:Hq.
  - rewrite Hind, Hq. reflexivity.
  - rewrite Hq. reflexivity.
Qed.

Section LeaveActionsFurther.
Import Leave.
Variable str_LeaveType : LeaveType.t -> string.
Variable backend : EmailMessage.t -> option Exception.

Local Abbreviation notification := (LeaveAdmin.notification_email str_LeaveType).
Local Abbreviation send := (LeaveAdmin.send_notification_email str_LeaveType backend).
Local Abbreviation posted w ms := (mkWorld (leave_table w) (timesheet_table w) (outbox w ++ ms)).

Implicit Types (queryset : Orm.QuerySet Leave.t) (w : World) (l : Leave.t) (label : string).

Lemma send_cases l label w :
  (exists m, notification l label = Return m /\ send l label w = (Return 1, posted w [m])) \/
  send l label w = (Return 0, w) \/
  (exists e, send l label w = (Raise e, w)).
Proof.
  destruct (notification l label) as [m | e] eqn:Hm.
  - destruct (LeaveAdmin.recipients m) as [| a rest] eqn:Hr.
    { right. left. now apply (send_without_recipient str_LeaveType backend l label m). }
    assert (Hne : LeaveAdmin.recipients m <> []) by (rewrite Hr; discriminate).
    destruct (backend m) as [e |] eqn:Hb.
    + right. right. exists e. now apply (send_refused str_LeaveType backend l label m).
    + left. exists m. split; [reflexivity |].
      now apply (send_accepted str_LeaveType backend l label m).
  - right. right. exists e. now apply send_not_built.
Qed.

(** Whatever happens in the loop, it only appends to the outbox, at most one
    message per leave, each the notification of one of the leaves. *)
Lemma for_each_appends leaves label w :
  exists msgs,
    snd (for_each leaves (fun l => send l label) w) = posted w msgs /\
    length msgs <= length leaves /\
    Forall (fun m => exists l, In l leaves /\ notification l label = Return m) msgs.
Proof.
  revert w. induction leaves as [| l leaves IH]; intros w.
  - exists []. cbn. rewrite app_nil_r. destruct w. repeat split; auto.
  - cbn [for_each]. unfold bind at 1.
    destruct (send_cases l label w) as [(m & Hm & ->) | [-> | (e & ->)]].
    + destruct (IH (posted w [m])) as (msgs & Hrun & Hlen & Hall).
      exists (m :: msgs). rewrite Hrun. cbn [leave_table timesheet_table outbox snd length].
      rewrite <- app_assoc. split; [reflexivity |]. split; [lia |].
      constructor.
      * exists l. split; [now left | exact Hm].
      * eapply List.Forall_impl; [| exact Hall]. intros m' (l' & Hin & Hm').
        exists l'. split; [now right | exact Hm'].
    + destruct (IH w) as (msgs & Hrun & Hlen & Hall).
      exists msgs. split; [exact Hrun |]. split; [cbn [length]; lia |].
      eapply List.Forall_impl; [| exact Hall]. intros m' (l' & Hin & Hm').
      exists l'. split; [now right | exact Hm'].
    + exists []. cbn [snd length]. rewrite app_nil_r. destruct w.
      split; [reflexivity |]. split; [lia | constructor].
Qed.

(** X6: In every case, raising or not: a leave bulk action leaves the timesheets
    alone, keeps every message already in the outbox and appends at most one
    notification per leave it iterates; in the table of leaves every row
    keeps its place and every column but [status], a row outside the
    queryset is unchanged and a row of the queryset gets the action's
    status. *)
Theorem leave_actions_frame action s label queryset w :
  In (action, s, label) (leave_actions str_LeaveType backend) ->
  let visited := Orm.rows queryset (Orm.update queryset (set_status s) (leave_table w)) in
  let (result, w') := action queryset w in
  timesheet_table w' = timesheet_table w /\
  (exists msgs,
     outbox w' = (outbox w ++ msgs)%list /\
     length msgs <= length visited /\
     Forall (fun m => exists l, In l visited /\ notification l label = Return m) msgs) /\
  length (leave_table w') = length (leave_table w) /\
  forall i l, leave_table w !! i = Some l ->
    exists l', leave_table w' !! i = Some l' /\
      pk l' = pk l /\ user l' = user l /\ leave_type l' = leave_type l /\
      description l' = description l /\ leavedate_set l' = leavedate_set l /\
      (queryset l = false -> l' = l) /\
      (queryset l = true -> l' = set_status s l).
Proof.
  intros Hin visited.
  pose proof (leave_action_run str_LeaveType backend action s label queryset w Hin) as Hrun.
  fold visited in Hrun.
  destruct (for_each_appends visited label
              (mkWorld (Orm.update queryset (set_status s) (leave_table w))
                 (timesheet_table w) (outbox w))) as (msgs & Hw & Hlen & Hall).
  rewrite <- Hrun in Hw. destruct (action queryset w) as [result w']. cbn [snd] in Hw.
  subst w'. cbn [leave_table timesheet_table outbox].
  split; [reflexivity |]. split; [exists msgs; auto |].
  split; [apply length_update |].
  intros i l Hl. rewrite update_lookup, Hl. cbn.
  destruct (queryset l) eqn:Hq.
  - exists (set_status s l). repeat split; congruence.
  - exists l. repeat split; congruence.
Qed.

(** X7: A queryset without rows: the action returns normally and changes
    nothing, neither a status nor the outbox. *)
Theorem leave_action_on_empty_selection action s label queryset w :
  In (action, s, label) (leave_actions str_LeaveType backend) ->
  (forall l, In l (leave_table w) -> queryset l = false) ->
  action queryset w = (Return tt, w).
Proof.
  intros Hin Hnone.
  rewrite (leave_action_run str_LeaveType backend action s label queryset w Hin).
  rewrite (update_none queryset (set_status s) (leave_table w) Hnone).
  rewrite (rows_none queryset (leave_table w) Hnone).
  cbn [for_each]. unfold ret. destruct w; reflexivity.
Qed.

(** X8: Leaves ticked in a change list that is filtered on a status other than
    the one the action assigns: the update changes their status, so the
    queryset, evaluated again by the loop, yields none of them. The action
    returns normally and posts no message at all, whatever the leaves and
    the mail backend are. *)
Theorem status_filtered_selection_gets_no_mail action s label s0 selected w :
  In (action, s, label) (leave_actions str_LeaveType backend) ->
  s0 <> s ->
  let queryset := ticked_under_status s0 selected in
  action queryset w =
    (Return tt,
     mkWorld (Orm.update queryset (set_status s) (leave_table w)) (timesheet_table w) (outbox w)) /\
  forall l, In l (leave_table w) -> status l = s0 -> In (pk l) selected ->
            In (set_status s l) (Orm.update queryset (set_status s) (leave_table w)).
Proof.
  intros Hin Hne queryset.
  assert (Hgone : forall l, queryset (set_status s l) = false).
  { intros l. unfold queryset, ticked_under_status, Orm.qs_filter, Orm.Q_and, status_is.
    cbn [status set_status Orm.all andb].
    destruct (status_eqb s s0) eqn:E; [| reflexivity].
    apply status_eqb_eq in E. congruence. }
  split.
  - rewrite (leave_action_run str_LeaveType backend action s label queryset w Hin).
    rewrite (rows_update_gone queryset s (leave_table w) Hgone). reflexivity.
  - intros l Hl Hs Hpk. apply In_update_rows. apply In_rows. split; [exact Hl |].
    unfold queryset, ticked_under_status, Orm.qs_filter, Orm.Q_and, status_is, pk_in.
    cbn [Orm.all andb]. apply andb_true_iff. split.
    + apply status_eqb_eq. exact Hs.
    + apply existsb_exists. exists (pk l). split; [exact Hpk | apply Nat.eqb_refl].
Qed.

End LeaveActionsFurther.

Lemma leave_actions_frame_witness :
  timesheet_table (snd (LeaveAdmin.make_approved Samples.str_name Samples.backend_up (pk_in [1; 2])
                          Samples.world_undated)) = [].
Proof.
  pose proof (leave_actions_frame Samples.str_name Samples.backend_up (LeaveAdmin.make_approved Samples.str_name Samples.backend_up)
                Leave.APPROVED "approved" (pk_in [1; 2]) Samples.world_undated
                (or_introl eq_refl)) as H.
  cbv zeta in H.
  destruct (LeaveAdmin.make_approved Samples.str_name Samples.backend_up (pk_in [1; 2]) Samples.world_undated)
    as [result w'].
  destruct H as (H & _). exact H.
Defined.

Lemma leave_action_on_empty_selection_witness :
  LeaveAdmin.make_rejected Samples.str_name Samples.backend_up (pk_in []) Samples.world_july =
  (Return tt, Samples.world_july).
Proof.
  apply (leave_action_on_empty_selection Samples.str_name Samples.backend_up (LeaveAdmin.make_rejected Samples.str_name Samples.backend_up)
           Leave.REJECTED "rejected").
  - right. left. reflexivity.
  - intros l _. reflexivity.
Defined.

Lemma status_filtered_selection_gets_no_mail_witness :
  LeaveAdmin.make_approved Samples.str_name Samples.backend_up
    (ticked_under_status (Leave.OTHER "pending") [1]) Samples.world_july =
  (Return tt, mkWorld [Leave.set_status Leave.APPROVED Samples.leave_july] [] []).
Proof.
  apply (status_filtered_selection_gets_no_mail Samples.str_name Samples.backend_up
           (LeaveAdmin.make_approved Samples.str_name Samples.backend_up) Leave.APPROVED "approved"
           (Leave.OTHER "pending") [1] Samples.world_july).
  - left. reflexivity.
  - discriminate.
Defined.

Section LeaveActionsInSequence.
Import Leave.
Variable str_LeaveType : LeaveType.t -> string.
Variable backend : EmailMessage.t -> option Exception.

Local Abbreviation notification := (LeaveAdmin.notification_email str_LeaveType).

Implicit Types (queryset : Orm.QuerySet Leave.t) (w : World) (l : Leave.t) (label : string).

(** One run on a selection that does not read the status, with dated leaves
    of users with an address and a backend that accepts the messages. *)
Lemma leave_action_run_accepted action s label queryset w :
  In (action, s, label) (leave_actions str_LeaveType backend) ->
  status_independent queryset ->
  (forall l, In l (Orm.rows queryset (leave_table w)) -> leavedate_set l <> []) ->
  (forall l, In l (Orm.rows queryset (leave_table w)) -> User.email (user l) <> "") ->
  (forall l m, In l (Orm.rows queryset (leave_table w)) ->
               notification l label = Return m -> backend m = None) ->
  exists msgs,
    Forall2 (fun l m => notification l label = Return m) (Orm.rows queryset (leave_table w)) msgs /\
    action queryset w =
      (Return tt,
       mkWorld (Orm.update queryset (set_status s) (leave_table w)) (timesheet_table w)
         (outbox w ++ msgs)).
Proof.
  intros Hin Hind Hdates Haddress Hmail.
  assert (Hall : Forall (fun l => exists m, notification l label = Return m /\
                                           LeaveAdmin.recipients m <> [] /\ backend m = None)
                   (Orm.rows queryset (leave_table w))).
  { apply List.Forall_forall. intros l Hl.
    destruct (notification_dated str_LeaveType l label (Hdates l Hl)) as (d1 & d2 & _ & _ & Hm).
    eexists. split; [exact Hm |]. split.
    - apply (recipients_nonblank str_LeaveType l label _ Hm). now apply Haddress.
    - eapply Hmail; eauto. }
  apply Forall_exists_Forall2 in Hall. destruct Hall as [msgs Hmsgs].
  exists msgs. split.
  - eapply Forall2_weaken; [| exact Hmsgs]. intros l m [H _]. exact H.
  - rewrite (leave_action_run str_LeaveType backend action s label queryset w Hin).
    rewrite (rows_update_independent queryset s (leave_table w) Hind).
    rewrite (for_each_all_sent str_LeaveType backend
               (map (set_status s) (Orm.rows queryset (leave_table w))) msgs label); [reflexivity |].
    clear -Hmsgs. induction Hmsgs as [| l m ls ms (Hm & Hr & Hb) _ IH]; cbn [map];
      constructor; auto.
Qed.

Lemma Forall2_notification_map s label (ls : list Leave.t) (ms : list EmailMessage.t) :
  Forall2 (fun l m => notification l label = Return m) (map (set_status s) ls) ms ->
  Forall2 (fun l m => notification l label = Return m) ls ms.
Proof.
  revert ms. induction ls as [| l ls IH]; intros ms H; inversion H; subst; constructor.
  - assumption.
  - now apply IH.
Qed.

Lemma Forall2_functional {A B} (f : A -> outcome B) (xs : list A) (ys zs : list B) :
  Forall2 (fun x y => f x = Return y) xs ys ->
  Forall2 (fun x y => f x = Return y) xs zs -> ys = zs.
Proof.
  intros H. revert zs. induction H as [| x y xs ys Hy _ IH]; intros zs Hz; inversion Hz; subst.
  - reflexivity.
  - f_equal; [congruence | now apply IH].
Qed.

(** X9: Two leave bulk actions in a row on the same selection (one that does
    not read the status, with dated leaves of users that have an email
    address, and an accepting backend): both
    return normally, the table is as if only the second had run, and the
    outbox holds one message per selected leave for the first action
    followed by one per selected leave for the second. Running the same
    action twice therefore sends every notification twice. *)
Theorem leave_actions_in_sequence action1 s1 label1 action2 s2 label2 queryset w :
  In (action1, s1, label1) (leave_actions str_LeaveType backend) ->
  In (action2, s2, label2) (leave_actions str_LeaveType backend) ->
  status_independent queryset ->
  (forall l, In l (Orm.rows queryset (leave_table w)) -> leavedate_set l <> []) ->
  (forall l, In l (Orm.rows queryset (leave_table w)) -> User.email (user l) <> "") ->
  (forall l m label, In l (Orm.rows queryset (leave_table w)) ->
                     notification l label = Return m -> backend m = None) ->
  let selected := Orm.rows queryset (leave_table w) in
  let (result1, w1) := action1 queryset w in
  let (result2, w2) := action2 queryset w1 in
  result1 = Return tt /\ result2 = Return tt /\
  leave_table w2 = Orm.update queryset (set_status s2) (leave_table w) /\
  exists msgs1 msgs2,
    outbox w2 = (outbox w ++ msgs1 ++ msgs2)%list /\
    Forall2 (fun l m => notification l label1 = Return m) selected msgs1 /\
    Forall2 (fun l m => notification l label2 = Return m) selected msgs2 /\
    (label1 = label2 -> msgs1 = msgs2).
Proof.
  intros Hin1 Hin2 Hind Hdates Haddress Hmail selected.
  destruct (leave_action_run_accepted action1 s1 label1 queryset w Hin1 Hind Hdates Haddress
              (fun l m => Hmail l m label1)) as (msgs1 & Hmsgs1 & ->).
  set (w1 := mkWorld _ _ _).
  assert (Hrows : Orm.rows queryset (leave_table w1) = map (set_status s1) selected)
    by apply (rows_update_independent queryset s1 (leave_table w) Hind).
  assert (Hdates1 : forall l, In l (Orm.rows queryset (leave_table w1)) -> leavedate_set l <> []).
  { intros l. rewrite Hrows, in_map_iff. intros (l0 & <- & Hl0). exact (Hdates l0 Hl0). }
  assert (Haddress1 : forall l, In l (Orm.rows queryset (leave_table w1)) ->
                                User.email (user l) <> "").
  { intros l. rewrite Hrows, in_map_iff. intros (l0 & <- & Hl0). exact (Haddress l0 Hl0). }
  assert (Hmail1 : forall l m, In l (Orm.rows queryset (leave_table w1)) ->
                               notification l label2 = Return m -> backend m = None).
  { intros l m. rewrite Hrows, in_map_iff. intros (l0 & <- & Hl0) Hm.
    exact (Hmail l0 m label2 Hl0 Hm). }
  destruct (leave_action_run_accepted action2 s2 label2 queryset w1 Hin2 Hind Hdates1 Haddress1
              Hmail1) as (msgs2 & Hmsgs2 & ->).
  rewrite Hrows in Hmsgs2.
  assert (Hmsgs2' : Forall2 (fun l m => notification l label2 = Return m) selected msgs2).
  { now apply (Forall2_notification_map s1). }
  cbn [leave_table timesheet_table outbox]. subst w1. cbn [leave_table outbox].
  split; [reflexivity |]. split; [reflexivity |].
  split; [now apply update_update_independent |].
  exists msgs1, msgs2. split; [now rewrite <- app_assoc |].
  split; [exact Hmsgs1 |]. split; [exact Hmsgs2' |].
  intros <-.
  exact (Forall2_functional (fun l => notification l label1) selected msgs1 msgs2 Hmsgs1 Hmsgs2').
Qed.

(** X10: A leave without description is announced under the subject of its type
    followed by the word None. *)
Theorem notification_without_description l label m :
  description l = None ->
  notification l label = Return m ->
  EmailMessage.subject m = str_LeaveType (leave_type l) +:+ " - None" /\
  EmailMessage.from_email m = "no-reply@inuits.eu" /\
  EmailMessage.recipient_list m = [User.email (user l)].
Proof.
  intros Hdesc Hm. destruct (leavedate_set l) as [| d ds] eqn:Hdates.
  - rewrite (notification_no_dates str_LeaveType l label Hdates) in Hm. discriminate.
  - assert (Hne : leavedate_set l <> []) by congruence.
    destruct (notification_dated str_LeaveType l label Hne) as (d1 & d2 & _ & _ & Heq).
    rewrite Heq in Hm. injection Hm as <-. cbn. rewrite Hdesc. repeat split.
Qed.

End LeaveActionsInSequence.

Lemma leave_actions_in_sequence_witness :
  length (outbox (snd (LeaveAdmin.make_approved Samples.str_name Samples.backend_up (pk_in [1])
                         (snd (LeaveAdmin.make_approved Samples.str_name Samples.backend_up
                                 (pk_in [1]) Samples.world_july))))) = 2.
Proof.
  pose proof (leave_actions_in_sequence Samples.str_name Samples.backend_up
                (LeaveAdmin.make_approved Samples.str_name Samples.backend_up)
                Leave.APPROVED "approved"
                (LeaveAdmin.make_approved Samples.str_name Samples.backend_up)
                Leave.APPROVED "approved" (pk_in [1]) Samples.world_july
                (or_introl eq_refl) (or_introl eq_refl) (pk_in_status_independent [1])) as H.
  assert (Hdates : forall l, In l (Orm.rows (pk_in [1]) (leave_table Samples.world_july)) ->
                             Leave.leavedate_set l <> []).
  { intros l [<- | []]. discriminate. }
  assert (Haddress : forall l, In l (Orm.rows (pk_in [1]) (leave_table Samples.world_july)) ->
                               User.email (Leave.user l) <> "").
  { intros l [<- | []]. discriminate. }
  specialize (H Hdates Haddress (fun l m label _ _ => eq_refl)). cbv zeta in H.
  destruct (LeaveAdmin.make_approved Samples.str_name Samples.backend_up (pk_in [1])
              Samples.world_july) as [result1 w1].
  cbn [snd].
  destruct (LeaveAdmin.make_approved Samples.str_name Samples.backend_up (pk_in [1]) w1)
    as [result2 w2].
  destruct H as (_ & _ & _ & msgs1 & msgs2 & Hout & H1 & H2 & _). cbn [snd].
  rewrite Hout. apply Forall2_length in H1, H2.
  cbn [Samples.world_july outbox app]. rewrite length_app, <- H1, <- H2. reflexivity.
Defined.

Lemma notification_without_description_witness :
  EmailMessage.subject (Samples.message_of Samples.leave_august "approved") = "Holiday - None".
Proof.
  apply (notification_without_description Samples.str_name Samples.leave_august "approved"
           (Samples.message_of Samples.leave_august "approved")); reflexivity.
Defined.

(* ===================================================================== *)
(** * Further properties: timesheets, performances, the WSGI module *)
(* ===================================================================== *)

Lemma timesheet_action_run action s (queryset : Orm.QuerySet Timesheet.t) w :
  In (action, s) timesheet_actions ->
  action queryset w =
  (Return tt,
   mkWorld (leave_table w) (Orm.update queryset (Timesheet.set_status s) (timesheet_table w))
     (outbox w)).
Proof.
  intros Hin. simpl in Hin. destruct Hin as [[= <- <-] | [[= <- <-] | [[= <- <-] | []]]];
    reflexivity.
Qed.

(** X11: No timesheet bulk action looks at the status a timesheet has: on a
    selection that does not read the status, a second action overrides the
    first, so the result of two actions in a row is the result of the second
    alone. A closed timesheet is reopened by [make_active], and running an
    action twice is the same as running it once. *)
Theorem timesheet_last_action_wins action1 s1 action2 s2 queryset w :
  In (action1, s1) timesheet_actions ->
  In (action2, s2) timesheet_actions ->
  timesheet_status_independent queryset ->
  action2 queryset (snd (action1 queryset w)) = action2 queryset w /\
  forall x, In x (Orm.rows queryset (timesheet_table w)) ->
            In (Timesheet.set_status s2 x) (timesheet_table (snd (action2 queryset w))).
Proof.
  intros H1 H2 Hind.
  rewrite (timesheet_action_run action1 s1 queryset w H1). cbn [snd].
  rewrite !(timesheet_action_run action2 s2 queryset _ H2).
  cbn [leave_table timesheet_table outbox snd]. split.
  - do 2 f_equal. unfold Orm.update. rewrite map_map. apply map_ext. intros x.
    destruct (queryset x) eqn:Hq.
    + rewrite Hind, Hq. reflexivity.
    + rewrite Hq. reflexivity.
  - intros x Hx. apply In_rows in Hx. destruct Hx as [Hx Hq].
    unfold Orm.update. apply in_map_iff. exists x. rewrite Hq. auto.
Qed.

Lemma timesheet_last_action_wins_witness :
  TimesheetAdmin.make_active Orm.all
    (snd (TimesheetAdmin.make_closed Orm.all Samples.world_timesheets)) =
  TimesheetAdmin.make_active Orm.all Samples.world_timesheets.
Proof.
  apply (timesheet_last_action_wins TimesheetAdmin.make_closed Timesheet.CLOSED
           TimesheetAdmin.make_active Timesheet.ACTIVE Orm.all Samples.world_timesheets).
  - left. reflexivity.
  - right. left. reflexivity.
  - intros s x. reflexivity.
Defined.

Section PerformanceColumnsFurther.
Import PerformanceParentAdmin.
Variable ugettext : string -> string.

(** X12: The columns of a performance show the fields of its activity subtype
    when there is one. [duration] is [None], and [contract] and
    [performance_type] are the 'Standby' label, exactly when there is none;
    [description] and [contract_role] are [None] also for an activity whose
    field is empty. *)
Theorem performance_columns_follow_subtype obj :
  (forall a, Performance.activityperformance obj = Return a ->
     duration obj = Some (ActivityPerformance.duration a) /\
     contract ugettext obj = inl (ActivityPerformance.contract a) /\
     performance_type ugettext obj = inl (ActivityPerformance.performance_type a) /\
     description obj = ActivityPerformance.description a /\
     contract_role obj = ActivityPerformance.contract_role a) /\
  (duration obj = None <-> forall a, Performance.activityperformance obj <> Return a) /\
  (contract ugettext obj = inr (ugettext "Standby") <->
     forall a, Performance.activityperformance obj <> Return a) /\
  (performance_type ugettext obj = inr (ugettext "Standby") <->
     forall a, Performance.activityperformance obj <> Return a).
Proof.
  split; [intros a Ha; now apply columns_of_activity |].
  unfold duration, contract, performance_type.
  destruct (Performance.activityperformance obj) as [a | e] eqn:Hattr.
  - rewrite (activity_of_found obj a Hattr).
    repeat split; try discriminate; intros H; now destruct (H a).
  - rewrite (activity_of_raised obj e Hattr).
    repeat split; try reflexivity; intros _ a; discriminate.
Qed.

End PerformanceColumnsFurther.

Section WsgiModuleFurther.
Variable get_django_configuration : gmap string string -> string.

Lemma setdefault_present key value (environ : gmap string string) :
  is_Some (environ !! key) -> Wsgi.setdefault key value environ = environ.
Proof. intros [v Hv]. unfold Wsgi.setdefault. now rewrite Hv. Qed.

(** X13: The two [setdefault] statements of the module body change the
    environment at most in the two variables: the variables defined after
    them are those defined before and these two. With both defined
    beforehand the environment is left exactly as it is, and executing the
    two statements a second time changes nothing. *)
Theorem wsgi_defaults_are_idempotent (environ : gmap string string) :
  let configure := Wsgi.configure get_django_configuration in
  dom (configure environ) =
    {[ "DJANGO_SETTINGS_MODULE"; "DJANGO_CONFIGURATION" ]} ∪ dom environ /\
  (is_Some (environ !! "DJANGO_SETTINGS_MODULE") ->
   is_Some (environ !! "DJANGO_CONFIGURATION") -> configure environ = environ) /\
  configure (configure environ) = configure environ.
Proof.
  cbv zeta.
  assert (Hboth : forall env : gmap string string,
            is_Some (env !! "DJANGO_SETTINGS_MODULE") ->
            is_Some (env !! "DJANGO_CONFIGURATION") ->
            Wsgi.configure get_django_configuration env = env).
  { intros env H1 H2. unfold Wsgi.configure.
    rewrite (setdefault_present _ _ env H1). now apply setdefault_present. }
  split; [| split].
  - apply set_eq. intros k. unfold Wsgi.configure.
    rewrite elem_of_union, !elem_of_dom, !setdefault_lookup.
    rewrite elem_of_union, !elem_of_singleton.
    destruct (decide (k = "DJANGO_CONFIGURATION")) as [-> | Hc];
      [split; [tauto | eauto] |].
    destruct (decide (k = "DJANGO_SETTINGS_MODULE")) as [-> | Hs];
      [split; [tauto | eauto] |].
    tauto.
  - apply Hboth.
  - apply Hboth; unfold Wsgi.configure; rewrite !setdefault_lookup.
    + rewrite decide_False by discriminate. rewrite decide_True by reflexivity. eauto.
    + rewrite decide_True by reflexivity. eauto.
Qed.

End WsgiModuleFurther.

(* ===================================================================== *)
(** * Further properties: the group admin *)
(* ===================================================================== *)

Section GroupAdminFacts.
Import GroupAdmin.
Implicit Types (obj : Group.t) (users : list User.t) (st : State).

Lemma save_model_eq obj users st :
  save_model obj users st =
  (Group.mk (Some (saved_key obj st)) (Group.name obj),
   mkState (<[saved_key obj st := Group.mk (Some (saved_key obj st)) (Group.name obj)]>
              (auth_group st))
     (<[saved_key obj st := list_to_set (map User.pk users)]> (user_set st))
     (users_initial st)).
Proof. reflexivity. Qed.

Lemma saved_key_fresh obj st :
  Group.pk obj = None -> auth_group st !! saved_key obj st = None.
Proof.
  intros H. unfold saved_key, save. rewrite H. apply not_elem_of_dom. apply is_fresh.
Qed.

(** X14: Saving a group in the admin and opening its form again: the form's
    initial value for [users] is a list, without repetition, of exactly the
    keys of the users that were submitted. *)
Theorem group_users_round_trip obj users st :
  let (obj', st') := save_model obj users st in
  exists pks,
    get_form (Some obj') st' = Py.Ok (mkState (auth_group st') (user_set st') (Some pks)) /\
    NoDup pks /\
    forall u, In u pks <-> In u (map User.pk users).
Proof.
  rewrite save_model_eq.
  exists (elements (list_to_set (map User.pk users) : gset nat)).
  split; [| split].
  - unfold get_form, user_set_all. cbn [Group.pk user_set auth_group].
    rewrite lookup_insert_eq. reflexivity.
  - apply NoDup_elements.
  - intros u. rewrite <- !list_elem_of_In, elem_of_elements, elem_of_list_to_set. reflexivity.
Qed.

(** X15: [save_model] replaces the members of the group by the submitted users,
    whoever was a member before (no user submitted: the group is emptied). A
    new group gets a key that no group has; the rows and the members of all
    other groups, and the form class, are untouched. *)
Theorem save_model_replaces_members obj users st :
  let (obj', st') := save_model obj users st in
  exists k,
    Group.pk obj' = Some k /\ Group.name obj' = Group.name obj /\
    auth_group st' !! k = Some obj' /\
    (forall u, u ∈ default ∅ (user_set st' !! k) <-> In u (map User.pk users)) /\
    (users = [] -> user_set st' !! k = Some ∅) /\
    (Group.pk obj = None -> auth_group st !! k = None) /\
    (forall k0, Group.pk obj = Some k0 -> k = k0) /\
    (forall k', k' <> k ->
       auth_group st' !! k' = auth_group st !! k' /\ user_set st' !! k' = user_set st !! k') /\
    users_initial st' = users_initial st.
Proof.
  rewrite save_model_eq. exists (saved_key obj st).
  cbn [Group.pk Group.name auth_group user_set users_initial].
  rewrite !lookup_insert_eq.
  split; [reflexivity |]. split; [reflexivity |]. split; [reflexivity |].
  split; [intros u; unfold default; cbn [from_option id];
          now rewrite elem_of_list_to_set, list_elem_of_In |].
  split; [now intros -> |].
  split; [apply saved_key_fresh |].
  split; [intros k0 H; unfold saved_key, save; now rewrite H |].
  split; [| reflexivity].
  intros k' Hk'. now rewrite !lookup_insert_ne by congruence.
Qed.

(** X16: [get_form] writes the keys into an attribute of the form class, which
    all requests share: the value left by one call is overwritten by the
    next and has no influence on it. Without an object the value is the
    empty list. The tables are never
    changed, and a group that was never saved makes the call fail. *)
Theorem get_form_overwrites_shared_initial (o1 o2 : option Group.t) st st1 :
  get_form o1 st = Py.Ok st1 ->
  get_form o2 st1 = get_form o2 st /\
  auth_group st1 = auth_group st /\ user_set st1 = user_set st /\
  get_form None st = Py.Ok (mkState (auth_group st) (user_set st) (Some [])) /\
  (forall name, exists e, get_form (Some (Group.mk None name)) st = Py.Err e).
Proof.
  intros H1. unfold get_form in H1.
  assert (Hst : auth_group st1 = auth_group st /\ user_set st1 = user_set st).
  { destruct o1 as [g |]; [destruct (user_set_all g st) |]; try discriminate;
      injection H1 as <-; split; reflexivity. }
  destruct Hst as [Hg Hu].
  split; [| split; [exact Hg | split; [exact Hu | split; [reflexivity |]]]].
  - unfold get_form, user_set_all. rewrite Hg, Hu. reflexivity.
  - intros name. eexists. reflexivity.
Qed.

End GroupAdminFacts.

Lemma get_form_overwrites_shared_initial_witness :
  GroupAdmin.get_form None
    (GroupAdmin.mkState ∅ ∅ (Some [])) =
  GroupAdmin.get_form None MoreSamples.empty_site.
Proof.
  apply (get_form_overwrites_shared_initial None None MoreSamples.empty_site
           (GroupAdmin.mkState ∅ ∅ (Some []))).
  reflexivity.
Defined.

(* ===================================================================== *)
(** * Further properties: the columns rendered as HTML *)
(* ===================================================================== *)

Section HtmlFacts.
Import Html.

Lemma String_append c a b : String c a +:+ b = String c (a +:+ b).
Proof. reflexivity. Qed.

Lemma map_result_compose {A B C} (f : A -> B) (g : B -> C) (r : Py.result A) :
  Py.map_result g (Py.map_result f r) = Py.map_result (fun a => g (f a)) r.
Proof. destruct r; reflexivity. Qed.

Lemma format_step c rest :
  is_brace c = false ->
  format_no_args (String c rest) = Py.map_result (String c) (format_no_args rest).
Proof.
  destruct c as [[] [] [] [] [] [] [] []]; intros H; try discriminate H; reflexivity.
Qed.

Lemma format_prefix pre s :
  braces_free pre = true ->
  format_no_args (pre +:+ s) = Py.map_result (String.append pre) (format_no_args s).
Proof.
  induction pre as [| c pre IH]; intros H.
  - change ("" +:+ s) with s. destruct (format_no_args s); reflexivity.
  - cbn [braces_free] in H. apply andb_true_iff in H. destruct H as [Hc Hpre].
    apply negb_true_iff in Hc.
    rewrite String_append, (format_step c _ Hc), (IH Hpre), map_result_compose. reflexivity.
Qed.

Lemma format_plain s : braces_free s = true -> format_no_args s = Py.Ok s.
Proof.
  intros H. rewrite <- (append_empty_r s) at 1. rewrite (format_prefix s "" H).
  cbn. now rewrite append_empty_r.
Qed.

Lemma format_single_open rest :
  starts_with "{" rest = false -> exists e, format_no_args (String "{" rest) = Py.Err e.
Proof.
  destruct rest as [| c rest]; [intros _; eexists; reflexivity |].
  destruct c as [[] [] [] [] [] [] [] []]; intros H; try discriminate H;
    cbn; destruct (has_closing_brace rest); eexists; reflexivity.
Qed.

Lemma format_single_close rest :
  starts_with "}" rest = false -> exists e, format_no_args (String "}" rest) = Py.Err e.
Proof.
  destruct rest as [| c rest]; [intros _; eexists; reflexivity |].
  destruct c as [[] [] [] [] [] [] [] []]; intros H; try discriminate H;
    eexists; reflexivity.
Qed.

Lemma format_single_brace pre b rest :
  braces_free pre = true -> is_brace b = true -> starts_with b rest = false ->
  exists e, format_html (pre +:+ String b rest) = Py.Err e.
Proof.
  intros Hpre Hb Hrest. unfold format_html. rewrite (format_prefix pre _ Hpre).
  unfold is_brace in Hb. apply orb_true_iff in Hb.
  destruct Hb as [Hb | Hb]; apply Ascii.eqb_eq in Hb; subst b.
  - destruct (format_single_open rest Hrest) as [e ->]. eexists. reflexivity.
  - destruct (format_single_close rest Hrest) as [e ->]. eexists. reflexivity.
Qed.

Lemma braces_free_app a b : braces_free (a +:+ b) = braces_free a && braces_free b.
Proof.
  induction a as [| c a IH]; [reflexivity |].
  rewrite String_append. cbn [braces_free]. rewrite IH. apply andb_assoc.
Qed.

Lemma braces_free_join sep items :
  braces_free sep = true -> Forall (fun s => braces_free s = true) items ->
  braces_free (join sep items) = true.
Proof.
  intros Hsep. induction 1 as [| x items Hx Hall IH]; [reflexivity |].
  cbn [join]. destruct items as [| y items]; [exact Hx |].
  rewrite !braces_free_app, Hx, Hsep. exact IH.
Qed.

Lemma starts_with_app c a b :
  starts_with c (a +:+ b) = match a with "" => starts_with c b | _ => starts_with c a end.
Proof. destruct a; reflexivity. Qed.

End HtmlFacts.

Section HtmlColumnFacts.
Import Html.
Variable str_LeaveDate : LeaveDate.t -> string.
Variable str_Attachment : Attachment.t -> string.
Variable get_file_url : Attachment.t -> string.

Local Abbreviation anchor_text x :=
  ("<a href=" +:+ dquote +:+ get_file_url x +:+ dquote +:+ ">" +:+ str_Attachment x +:+ "</a>").

Lemma anchor_eq x :
  HtmlColumns.anchor str_Attachment get_file_url x = Return (anchor_text x).
Proof. reflexivity. Qed.

Lemma anchors_eq xs :
  HtmlColumns.anchors str_Attachment get_file_url xs = Return (map (fun x => anchor_text x) xs).
Proof.
  induction xs as [| x xs IH]; [reflexivity |].
  cbn [HtmlColumns.anchors map]. rewrite anchor_eq, IH. reflexivity.
Qed.

Lemma anchor_text_free x :
  braces_free (get_file_url x) = true -> braces_free (str_Attachment x) = true ->
  braces_free (anchor_text x) = true.
Proof. intros Hu Hs. rewrite !braces_free_app, Hu, Hs. reflexivity. Qed.

(** X17: [leave_dates] shows the texts of the leave dates joined by [<br>], as
    they are and marked safe (nothing is escaped), as long as no text holds
    a brace; for a leave without leave dates the cell is empty. *)
Theorem leave_dates_joins_texts obj :
  Forall (fun d => braces_free (str_LeaveDate d) = true) (Leave.leavedate_set obj) ->
  HtmlColumns.leave_dates str_LeaveDate obj =
    Py.Ok (mark_safe (join "<br>" (map str_LeaveDate (Leave.leavedate_set obj)))) /\
  (Leave.leavedate_set obj = [] ->
   HtmlColumns.leave_dates str_LeaveDate obj = Py.Ok (mark_safe "")).
Proof.
  intros Hfree. unfold HtmlColumns.leave_dates, format_html. split.
  - rewrite format_plain; [reflexivity |]. apply braces_free_join; [reflexivity |].
    apply List.Forall_map. exact Hfree.
  - intros ->. reflexivity.
Qed.

(** X18: [link] and the [attachment] columns render, for an attachment whose URL
    and text hold no brace, the anchor with the URL and the text put in as
    they are: no character of either is escaped. Attachments are joined by
    [<br>], and no attachment gives an empty cell. *)
Theorem attachment_columns_render_anchors x xs :
  braces_free (get_file_url x) = true ->
  braces_free (str_Attachment x) = true ->
  Forall (fun y => braces_free (get_file_url y) = true /\ braces_free (str_Attachment y) = true)
    xs ->
  HtmlColumns.link str_Attachment get_file_url x = Py.Ok (mark_safe (anchor_text x)) /\
  HtmlColumns.attachment str_Attachment get_file_url xs =
    Py.Ok (mark_safe (join "<br>" (map (fun y => anchor_text y) xs))) /\
  HtmlColumns.attachment str_Attachment get_file_url [] = Py.Ok (mark_safe "").
Proof.
  intros Hu Hs Hxs. split; [| split].
  - unfold HtmlColumns.link, format_html. rewrite anchor_eq.
    rewrite format_plain; [reflexivity | now apply anchor_text_free].
  - unfold HtmlColumns.attachment, format_html. rewrite anchors_eq.
    rewrite format_plain; [reflexivity |]. apply braces_free_join; [reflexivity |].
    apply List.Forall_map. eapply List.Forall_impl; [| exact Hxs].
    intros y [H1 H2]. now apply anchor_text_free.
  - reflexivity.
Qed.

(** X19: The anchor is formatted a second time, by [format_html], with no
    argument: an attachment whose text holds a brace that is not doubled
    makes [link] raise instead of rendering. *)
Theorem link_fails_on_a_brace x pre b rest :
  str_Attachment x = pre +:+ String b rest ->
  braces_free (get_file_url x) = true ->
  braces_free pre = true ->
  is_brace b = true ->
  starts_with b rest = false ->
  exists e, HtmlColumns.link str_Attachment get_file_url x = Py.Err e.
Proof.
  intros Hname Hu Hpre Hb Hrest. unfold HtmlColumns.link. rewrite anchor_eq, Hname.
  replace ("<a href=" +:+ dquote +:+ get_file_url x +:+ dquote +:+ ">" +:+
           (pre +:+ String b rest) +:+ "</a>")
    with (("<a href=" +:+ dquote +:+ get_file_url x +:+ dquote +:+ ">" +:+ pre) +:+
          String b (rest +:+ "</a>")).
  - apply format_single_brace; [| exact Hb |].
    + rewrite !braces_free_app, Hu, Hpre. reflexivity.
    + rewrite starts_with_app. destruct rest; [| exact Hrest].
      unfold is_brace in Hb. apply orb_true_iff in Hb.
      destruct Hb as [Hb | Hb]; apply Ascii.eqb_eq in Hb; subst b; reflexivity.
  - rewrite !append_assoc. reflexivity.
Qed.

End HtmlColumnFacts.

Lemma leave_dates_joins_texts_witness :
  HtmlColumns.leave_dates (fun d => isoformat (date_of (LeaveDate.starts_at d))) Samples.leave_july =
  Py.Ok (Html.mark_safe "2018-07-02<br>2018-07-03").
Proof.
  apply (leave_dates_joins_texts (fun d => isoformat (date_of (LeaveDate.starts_at d)))
           Samples.leave_july).
  repeat constructor.
Defined.

Lemma attachment_columns_render_anchors_witness :
  HtmlColumns.link MoreSamples.name_of MoreSamples.url_of MoreSamples.report =
  Py.Ok (Html.mark_safe ("<a href=" +:+ Html.dquote +:+ "/media/report.pdf" +:+ Html.dquote +:+
                         ">report</a>")).
Proof.
  apply (attachment_columns_render_anchors MoreSamples.name_of MoreSamples.url_of
           MoreSamples.report []); try reflexivity.
  constructor.
Defined.

Lemma link_fails_on_a_brace_witness :
  exists e,
    HtmlColumns.link (fun _ => "plan {draft}") MoreSamples.url_of MoreSamples.report = Py.Err e.
Proof.
  apply (link_fails_on_a_brace (fun _ => "plan {draft}") MoreSamples.url_of MoreSamples.report
           "plan " "{" "draft}"); reflexivity.
Defined.
